(** * csfloat-export: a model of [csfloat_export.py] and its specification

    The script fetches a user's trade history from the CSFloat API,
    normalises it and writes two CSV tables.  This file embeds the script's
    functions ([safe_float], [format_price], [fetch_csfloat_trades],
    [process_trades], [export_to_csv], [async_main]) and checks the
    statements of the specification against them.

    Conventions of the embedding:
    - a value decoded from the API's JSON is a [json]; Python's [None] is
      [JNull], a [dict] is an association list whose first binding of a key
      is the live one;
    - a Python [str] is a [string], one [ascii] per character, so the model
      covers the strings whose code points are below 256;
    - a Python [float] is a binary64 number, [spec_float] with the standard
      library's IEEE-754 operations at precision 53;
    - a computation that may raise is a [result]; the loop of the fetcher,
      which need not terminate, takes fuel;
    - the clock, the server and the file system are explicit; the progress
      messages the script prints are left out. *)

From stdpp Require Import gmap strings.
From Stdlib Require Import ZArith QArith Lqa Lia Bool List String Ascii.
From Stdlib Require Import DecimalString.
From Stdlib Require Import Sorted Permutation.
From Stdlib Require Import Floats.SpecFloat.
Import ListNotations.

Local Open Scope string_scope.
Local Open Scope list_scope.

(** ** Python values, exceptions and the operations the script uses *)

Module Py.

Inductive exn : Type :=
| AttributeError
| TypeError
| ValueError
| OverflowError
| ZeroDivisionError
| ClientError
| JSONDecodeError.

Definition exn_eqb (a b : exn) : bool :=
  match a, b with
  | AttributeError, AttributeError
  | TypeError, TypeError
  | ValueError, ValueError
  | OverflowError, OverflowError
  | ZeroDivisionError, ZeroDivisionError
  | ClientError, ClientError
  | JSONDecodeError, JSONDecodeError => true
  | _, _ => false
  end.

Inductive result (A : Type) : Type :=
| Ok (a : A)
| Raise (e : exn).
Arguments Ok {A} a.
Arguments Raise {A} e.

Definition bind {A B} (c : result A) (k : A -> result B) : result B :=
  match c with
  | Ok a => k a
  | Raise e => Raise e
  end.

(** [try: body / except (e1, e2, ...): handler] *)
Definition try_except {A} (body : result A) (caught : list exn)
    (handler : result A) : result A :=
  match body with
  | Ok a => Ok a
  | Raise e => if existsb (exn_eqb e) caught then handler else Raise e
  end.

(** *** Floats *)

Definition pyfloat : Type := spec_float.
Definition prec : Z := 53.
Definition emax : Z := 1024.

Definition fmul : pyfloat -> pyfloat -> pyfloat := SFmul prec emax.
Definition fdiv : pyfloat -> pyfloat -> pyfloat := SFdiv prec emax.

Definition is_infinite (x : pyfloat) : bool :=
  match x with S754_infinity _ => true | _ => false end.

Definition finite_or_overflow (x : pyfloat) : result pyfloat :=
  if is_infinite x then Raise OverflowError else Ok x.

(** The float nearest to the integer [z]: no exception here. *)
Definition of_Z (z : Z) : pyfloat := binary_normalize prec emax z 0 false.

(** [float(z)] for an [int]: correctly rounded, [OverflowError] when the
    integer is beyond the range of a float. *)
Definition float_of_int (z : Z) : result pyfloat :=
  finite_or_overflow (of_Z z).

(** [a / b] for two [int]s: the quotient correctly rounded to a float. *)
Definition int_truediv (a b : Z) : result pyfloat :=
  match a, b with
  | _, Z0 => Raise ZeroDivisionError
  | Z0, _ => Ok (S754_zero (b <? 0)%Z)
  | _, _ =>
      finite_or_overflow
        (fdiv (S754_finite (a <? 0)%Z (Z.to_pos (Z.abs a)) 0)
              (S754_finite (b <? 0)%Z (Z.to_pos (Z.abs b)) 0))
  end.

(** [x / y] for two floats: only a zero divisor raises. *)
Definition float_truediv (x y : pyfloat) : result pyfloat :=
  match y with
  | S754_zero _ => Raise ZeroDivisionError
  | _ => Ok (fdiv x y)
  end.

(** The integer nearest to [n / d] ([d] positive), ties to the even one. *)
Definition div_half_even (n d : Z) : Z :=
  let q := (n / d)%Z in
  let r := (n mod d)%Z in
  match (2 * r ?= d)%Z with
  | Lt => q
  | Gt => (q + 1)%Z
  | Eq => if Z.even q then q else (q + 1)%Z
  end.

(** The exact value [m * 2^e] times [10^ndigits], rounded half-even to
    an integer. *)
Definition scaled (m : positive) (e : Z) (ndigits : nat) : Z :=
  let p := (10 ^ Z.of_nat ndigits)%Z in
  match e with
  | Zneg k => div_half_even (Zpos m * p) (2 ^ Zpos k)
  | _ => (Zpos m * 2 ^ e * p)%Z
  end.

(** [round(x, ndigits)] for a float and a small non-negative [ndigits]:
    the exact value of [x] is rounded half-even to [ndigits] decimal
    places and the decimal result converted back to the nearest float. *)
Definition round (x : pyfloat) (ndigits : nat) : result pyfloat :=
  match x with
  | S754_finite s m e =>
      match scaled m e ndigits with
      | Zpos q =>
          finite_or_overflow
            (fdiv (S754_finite s q 0)
                  (S754_finite false (Z.to_pos (10 ^ Z.of_nat ndigits)) 0))
      | _ => Ok (S754_zero s)
      end
  | _ => Ok x
  end.

(** *** Strings *)

(** [s[:n]] *)
Fixpoint slice_to (n : nat) (s : string) : string :=
  match n, s with
  | S k, String c s' => String c (slice_to k s')
  | _, _ => EmptyString
  end.

(** [sub in s] *)
Fixpoint contains (sub s : string) : bool :=
  String.prefix sub s ||
  match s with
  | EmptyString => false
  | String _ s' => contains sub s'
  end.

(** [s.split(sep)[0]] for a non-empty separator: the text before the
    first occurrence of [sep], the whole of [s] when there is none. *)
Fixpoint split_head (sep s : string) : string :=
  match s with
  | EmptyString => EmptyString
  | String c s' =>
      if String.prefix sep s then EmptyString
      else String c (split_head sep s')
  end.

Fixpoint replace_from (old new : string) (skip : nat) (s : string) : string :=
  match s with
  | EmptyString => EmptyString
  | String c s' =>
      match skip with
      | S k => replace_from old new k s'
      | O =>
          if String.prefix old s
          then new ++ replace_from old new (String.length old - 1) s'
          else String c (replace_from old new 0 s')
      end
  end.

(** [s.replace(old, new)] for a non-empty [old]: every occurrence, found
    from the left and not overlapping, is replaced. *)
Definition replace (old new s : string) : string :=
  replace_from old new 0 s.

(** *** JSON values as Python objects *)

#[warnings="-register-all"]
Inductive json : Type :=
| JNull
| JBool (b : bool)
| JInt (z : Z)
| JFloat (x : pyfloat)
| JStr (s : string)
| JList (l : list json)
| JDict (d : list (string * json)).

Definition dict : Type := list (string * json).

Fixpoint lookup (k : string) (d : dict) : option json :=
  match d with
  | [] => None
  | (k', v) :: d' => if String.eqb k k' then Some v else lookup k d'
  end.

(** [o.get(k, default)]: only a [dict] has the method. *)
Definition get (o : json) (k : string) (default : json) : result json :=
  match o with
  | JDict d => Ok (match lookup k d with Some v => v | None => default end)
  | _ => Raise AttributeError
  end.

(** [not o] is [negb (truthy o)]. *)
Definition truthy (o : json) : bool :=
  match o with
  | JNull => false
  | JBool b => b
  | JInt z => negb (z =? 0)%Z
  | JFloat (S754_zero _) => false
  | JFloat _ => true
  | JStr EmptyString => false
  | JStr _ => true
  | JList [] => false
  | JList _ => true
  | JDict [] => false
  | JDict _ => true
  end.

(** [o != s] for a [str] [s] *)
Definition ne_str (o : json) (s : string) : bool :=
  match o with
  | JStr s' => negb (String.eqb s' s)
  | _ => true
  end.

(** [o != v] for [v] an [Optional[str]], as [os.getenv] returns it *)
Definition ne_optstr (o : json) (v : option string) : bool :=
  match v, o with
  | Some s, _ => ne_str o s
  | None, JNull => false
  | None, _ => true
  end.

(** [not v] for [v] an [Optional[str]] *)
Definition optstr_falsy (v : option string) : bool :=
  match v with
  | None | Some EmptyString => true
  | Some _ => false
  end.

(** [len(o)] *)
Definition len (o : json) : result nat :=
  match o with
  | JStr s => Ok (String.length s)
  | JList l => Ok (List.length l)
  | JDict d => Ok (List.length d)
  | _ => Raise TypeError
  end.

(** The elements [for x in o] goes through: the items of a list, the
    characters of a string, the keys of a dict. *)
Definition iter (o : json) : result (list json) :=
  match o with
  | JList l => Ok l
  | JStr s => Ok (List.map (fun c => JStr (String c EmptyString))
                           (list_ascii_of_string s))
  | JDict d => Ok (List.map (fun kv => JStr (fst kv)) d)
  | _ => Raise TypeError
  end.

(** [acc.extend(o)], returning the extended list *)
Definition extend (acc : list json) (o : json) : result (list json) :=
  bind (iter o) (fun l => Ok (acc ++ l)).

(** The [str] methods the script calls on a value it has not checked. *)
Definition str_replace (o : json) (old new : string) : result string :=
  match o with
  | JStr s => Ok (replace old new s)
  | _ => Raise AttributeError
  end.

(** [sub in o] *)
Definition str_contains (sub : string) (o : json) : result bool :=
  match o with
  | JStr s => Ok (contains sub s)
  | JList l => Ok (existsb (fun v => negb (ne_str v sub)) l)
  | JDict d => Ok (existsb (fun kv => String.eqb sub (fst kv)) d)
  | _ => Raise TypeError
  end.

Definition str_split_head (o : json) (sep : string) : result string :=
  match o with
  | JStr s => Ok (split_head sep s)
  | _ => Raise AttributeError
  end.

(** [o[:n]] where a [str] is expected; the script reaches it only with
    a [str], after [replace] has succeeded on the same object. *)
Definition str_slice_to (o : json) (n : nat) : result string :=
  match o with
  | JStr s => Ok (slice_to n s)
  | _ => Raise TypeError
  end.

End Py.

(** [x ← c; k] runs [c] and, unless it raised, [k] on its value. *)
#[global] Instance result_bind : MBind Py.result := fun A B k c => Py.bind c k.
#[global] Instance result_ret : MRet Py.result := fun A a => Py.Ok a.

(** ** The part of [datetime] the script relies on

    [process_trades] is parametric in the library's [fromisoformat] and
    [strftime]; this module gives the reference instance used in the worked
    examples.  It accepts the strings [datetime.isoformat] emits,
    [YYYY-MM-DD[*HH[:MM[:SS[.fff[fff]]]][+HH:MM[:SS[.ffffff]]]]], and
    rejects (with [ValueError], here [None]) everything else; later
    releases of the library accept further ISO-8601 forms. *)

Module Datetime.

Record datetime : Type := mk_datetime {
  year : nat; month : nat; day : nat;
  hour : nat; minute : nat; second : nat; microsecond : nat;
  utcoffset : option Z   (* microseconds east of UTC, [None] when naive *)
}.

Definition digit_of (c : ascii) : option nat :=
  let n := nat_of_ascii c in
  if (48 <=? n)%nat && (n <=? 57)%nat then Some (n - 48)%nat else None.

(** The number written by the first [n] characters of [s], all of them
    decimal digits, and the rest of [s]. *)
Fixpoint digits (n : nat) (acc : nat) (s : string) : option (nat * string) :=
  match n with
  | O => Some (acc, s)
  | S k =>
      match s with
      | EmptyString => None
      | String c s' =>
          match digit_of c with
          | Some d => digits k (10 * acc + d)%nat s'
          | None => None
          end
      end
  end.

Definition expect (c : ascii) (s : string) : option string :=
  match s with
  | String c' s' => if Ascii.eqb c c' then Some s' else None
  | EmptyString => None
  end.

Definition is_leap (y : nat) : bool :=
  ((y mod 4 =? 0) && (negb (y mod 100 =? 0) || (y mod 400 =? 0)))%nat.

Definition days_in_month (y m : nat) : nat :=
  match m with
  | 2 => if is_leap y then 29 else 28
  | 4 | 6 | 9 | 11 => 30
  | _ => 31
  end%nat.

(** [HH[:MM[:SS[.fff[fff]]]]], the whole of [s] *)
Definition parse_hh_mm_ss_ff (s : string) : option (nat * nat * nat * nat) :=
  '(h, s1) ← digits 2 0 s;
  match s1 with
  | EmptyString => Some (h, 0, 0, 0)%nat
  | _ =>
      s1' ← expect ":" s1;
      '(m, s2) ← digits 2 0 s1';
      match s2 with
      | EmptyString => Some (h, m, 0, 0)%nat
      | _ =>
          s2' ← expect ":" s2;
          '(sec, s3) ← digits 2 0 s2';
          match s3 with
          | EmptyString => Some (h, m, sec, 0)%nat
          | _ =>
              f ← expect "." s3;
              match String.length f with
              | 3%nat =>
                  '(us, _) ← digits 3 0 f; Some (h, m, sec, us * 1000)%nat
              | 6%nat =>
                  '(us, _) ← digits 6 0 f; Some (h, m, sec, us)%nat
              | _ => None
              end
          end
      end
  end.

(** Splits a time string at its first [+] or [-] (a [-] anywhere wins over
    a [+], as in the library): the time, and the sign and text of the
    offset when there is one. *)
Fixpoint find_sign (c : ascii) (s : string) : option (string * string) :=
  match s with
  | EmptyString => None
  | String c' s' =>
      if Ascii.eqb c c' then Some (EmptyString, s')
      else '(a, b) ← find_sign c s'; Some (String c' a, b)
  end.

Definition split_offset (s : string) : string * option (bool * string) :=
  match find_sign "-" s with
  | Some (t, z) => (t, Some (true, z))
  | None =>
      match find_sign "+" s with
      | Some (t, z) => (t, Some (false, z))
      | None => (s, None)
      end
  end.

Definition micros (h m s us : nat) : Z :=
  ((Z.of_nat h * 3600 + Z.of_nat m * 60 + Z.of_nat s) * 1000000
   + Z.of_nat us)%Z.

Definition parse_isoformat_time (s : string)
    : option (nat * nat * nat * nat * option Z) :=
  if (String.length s <? 2)%nat then None else
  let '(t, z) := split_offset s in
  '(h, m, sec, us) ← parse_hh_mm_ss_ff t;
  match z with
  | None => Some (h, m, sec, us, None)
  | Some (neg, zs) =>
      let n := String.length zs in
      if negb ((n =? 5) || (n =? 8) || (n =? 15))%nat then None else
      '(zh, zm, zsec, zus) ← parse_hh_mm_ss_ff zs;
      let off := micros zh zm zsec zus in
      Some (h, m, sec, us, Some (if neg then (- off)%Z else off))
  end.

Definition valid (d : datetime) : bool :=
  ((1 <=? year d) && (year d <? 100 * 100) &&
   (1 <=? month d) && (month d <=? 12) &&
   (1 <=? day d) && (day d <=? days_in_month (year d) (month d)) &&
   (hour d <? 24) && (minute d <? 60) && (second d <? 60))%nat &&
  match utcoffset d with
  | Some off => (Z.abs off <? 24 * 3600 * 1000000)%Z
  | None => true
  end.

(** [datetime.fromisoformat(s)], [None] standing for [ValueError] *)
Definition fromisoformat (s : string) : option datetime :=
  '(y, s1) ← digits 4 0 s;
  s1' ← expect "-" s1;
  '(mo, s2) ← digits 2 0 s1';
  s2' ← expect "-" s2;
  '(d, s3) ← digits 2 0 s2';
  '(h, mi, sec, us, off) ←
    match s3 with
    | EmptyString => Some (0, 0, 0, 0, None)%nat
    | String _ t => parse_isoformat_time t
    end;
  let dt := mk_datetime y mo d h mi sec us off in
  if valid dt then Some dt else None.

Definition digit_char (n : nat) : ascii := ascii_of_nat (48 + n mod 10).

Fixpoint zero_padded (width n : nat) : string :=
  match width with
  | O => EmptyString
  | S w => zero_padded w (n / 10) ++ String (digit_char n) EmptyString
  end.

(** [d.strftime('%Y-%m-%d')], the year padded to four digits (as every
    platform writes the years from 1000 on). *)
Definition strftime_Ymd (d : datetime) : string :=
  zero_padded 4 (year d) ++ "-" ++ zero_padded 2 (month d) ++ "-"
    ++ zero_padded 2 (day d).

End Datetime.

Import Py.

(** ** The world the script runs in *)

(** A span of time, in seconds: never negative. *)
Record duration : Type := mk_duration {
  seconds : Q;
  seconds_nonneg : (0 <= seconds)%Q
}.

(** What a [GET] comes back with: the transport raised, or a response
    arrived with a status and a body ([None] when the body is not JSON, so
    that [response.json()] raises). *)
Inductive outcome : Type :=
| Failed (e : exn)
| Response (status : Z) (body : option json).

Record request : Type := mk_request {
  url : string;
  authorization : string
}.

Definition decimal (n : nat) : string :=
  NilZero.string_of_uint (Nat.to_uint n).

(** The URL of one page of the trades of a role, 500 to the page *)
Definition trades_url (role : string) (page : nat) : string :=
  "https://csfloat.com/api/v1/me/trades?role=" ++ role
    ++ "&state=verified&limit=500&page=" ++ decimal page.

(** What a run does that the outside can see, besides the files it writes:
    it suspends itself, from some clock reading and for some time, and it
    sends requests, each stamped with the clock reading taken just before
    it is issued ([last_request_time]). *)
Inductive event : Type :=
| Slept (from_time wait_time : Q)
| Requested (req : request) (at_time : Q).

(** The environment answers by URL (within a run no URL is requested
    twice) and decides how much time passes: [lag u] between the rate-limit
    check made for the request of [u] and the stamping of that request,
    beyond the suspension asked for, and [busy u] from the stamping to the
    next reading of the clock. *)
Record environment : Type := mk_environment {
  server : string -> outcome;
  lag : string -> duration;
  busy : string -> duration;
  between_fetches : duration
}.

Record world : Type := mk_world {
  files : gmap string string;
  clock : Q;
  trace : list event
}.

(** The two perspectives on a trade, and the strings that name them. *)
Inductive Role : Type := Buyer | Seller.

Definition role_name (r : Role) : string :=
  match r with Buyer => "buyer" | Seller => "seller" end.

Definition is_seller (r : Role) : bool :=
  match r with Buyer => false | Seller => true end.

(** One processed trade, the [dict] built by [process_trades]. *)
Record row : Type := mk_row {
  item_name : json;
  price : pyfloat;
  float : option pyfloat;
  type : json;
  date : string;
  id : json
}.

(** [list.sort(key=lambda x: x['date'])]: ascending and stable, which
    determines the result; written here as a stable insertion sort. *)
Fixpoint insert_by_date (r : row) (l : list row) : list row :=
  match l with
  | [] => [r]
  | r' :: l' =>
      if String.leb (date r) (date r') then r :: l
      else r' :: insert_by_date r l'
  end.

Definition sort_by_date (l : list row) : list row :=
  fold_right insert_by_date [] l.

Definition RATE_LIMIT : Q := 120.

Definition zero : pyfloat := S754_zero false.
Definition one : pyfloat := Eval vm_compute in of_Z 1.
Definition hundred : pyfloat := Eval vm_compute in of_Z 100.
(** The literal [0.98]: the float nearest to 98/100. *)
Definition fee_factor : pyfloat := Eval vm_compute in fdiv (of_Z 98) (of_Z 100).

Definition is_none (o : json) : bool :=
  match o with JNull => true | _ => false end.

Definition int_of_bool (b : bool) : Z := if b then 1%Z else 0%Z.

(** [o / 100] *)
Definition div_100 (o : json) : result pyfloat :=
  match o with
  | JInt z => int_truediv z 100
  | JBool b => int_truediv (int_of_bool b) 100
  | JFloat x => float_truediv x hundred
  | _ => Raise TypeError
  end.

(** ** Sample data

    Stand-ins for the library functions, enough to run the script on the
    examples below (the statements hold for every choice of them), and a few
    raw trades and servers. *)

Module Samples.

Fixpoint digits_value (acc : N) (s : string) : option N :=
  match s with
  | EmptyString => Some acc
  | String c s' =>
      match Datetime.digit_of c with
      | Some d => digits_value (10 * acc + N.of_nat d)%N s'
      | None => None
      end
  end.

Fixpoint after_dot (s : string) : string :=
  match s with
  | EmptyString => EmptyString
  | String c s' => if Ascii.eqb c "." then s' else after_dot s'
  end.

(** [float(s)] on plain decimals, [-12.5] or [0.15]: the nearest float. *)
Definition float_of_str (s : string) : option pyfloat :=
  let '(neg, body) :=
    match s with
    | String "-" s' => (true, s')
    | _ => (false, s)
    end in
  let whole := split_head "." body in
  let frac := after_dot body in
  if (String.length whole + String.length frac =? 0)%nat then None else
  m ← digits_value 0 (whole ++ frac);
  match m with
  | N0 => Some (S754_zero neg)
  | Npos p =>
      Some (fdiv (S754_finite neg p 0)
                 (S754_finite false
                    (Z.to_pos (10 ^ Z.of_nat (String.length frac))) 0))
  end.

Definition N_decimal (n : N) : string :=
  NilZero.string_of_uint (N.to_uint n).

Fixpoint zeros (n : nat) : string :=
  match n with
  | O => EmptyString
  | S k => String "0" (zeros k)
  end.

Definition fixed (neg : bool) (n : N) (k : nat) : string :=
  let p := (10 ^ N.of_nat k)%N in
  let frac := N_decimal (n mod p) in
  (if neg then "-" else EmptyString)
    ++ N_decimal (n / p) ++ "."
    ++ zeros (k - String.length frac) ++ frac.

Fixpoint shortest (fuel k : nat) (s : bool) (m : positive) (e : Z) : string :=
  match fuel with
  | O => "?"
  | S fuel' =>
      match round (S754_finite s m e) k with
      | Ok (S754_finite _ m' e') =>
          if Pos.eqb m m' && Z.eqb e e'
          then fixed s (Z.to_N (scaled m e k)) k
          else shortest fuel' (S k) s m e
      | _ => shortest fuel' (S k) s m e
      end
  end.

(** [str(x)] of a float, for the magnitudes written without exponent: the
    fewest decimals that read back as [x]. *)
Definition str_of_float (x : pyfloat) : string :=
  match x with
  | S754_zero s => if s then "-0.0" else "0.0"
  | S754_infinity s => if s then "-inf" else "inf"
  | S754_nan => "nan"
  | S754_finite s m e => shortest 30 1 s m e
  end.

(** [str(o)] where it is short to write *)
Definition str_of_json (o : json) : string :=
  match o with
  | JInt z =>
      (if (z <? 0)%Z then "-" else EmptyString) ++ N_decimal (Z.abs_N z)
  | JBool b => if b then "True" else "False"
  | _ => "<object>"
  end.

Definition party (steam_id : string) : json :=
  JDict [("steam_id", JStr steam_id)].

Definition ak47 : json :=
  JDict [ ("market_hash_name", JStr "AK-47");
          ("float_value", JStr "0.15");
          ("type_name", JStr "Rifle") ].

(** The record of the end-to-end scenario of the specification, the
    identity 123 on both sides. *)
Definition verified_trade : json :=
  JDict [ ("state", JStr "verified");
          ("buyer", party "123");
          ("seller", party "123");
          ("contract", JDict [("price", JInt 10000); ("item", ak47)]);
          ("accepted_at", JStr "2023-01-15T00:00:00Z");
          ("id", JStr "abc") ].

(** An earlier trade that has only [verified_at], in no ISO form *)
Definition earlier_trade : json :=
  JDict [ ("state", JStr "verified");
          ("buyer", party "123");
          ("contract", JDict [("price", JInt 2599)]);
          ("verified_at", JStr "2022-11-30 18:05");
          ("id", JStr "def") ].

Definition pending_trade : json :=
  JDict [ ("state", JStr "pending");
          ("buyer", party "123");
          ("accepted_at", JStr "2023-02-01T00:00:00Z") ].

Definition foreign_trade : json :=
  JDict [ ("state", JStr "verified");
          ("buyer", party "999");
          ("accepted_at", JStr "2023-02-01T00:00:00Z") ].

Definition undated_trade : json :=
  JDict [ ("state", JStr "verified"); ("buyer", party "123") ].

(** A verified trade with nobody on it *)
Definition anonymous_trade : json :=
  JDict [ ("state", JStr "verified");
          ("contract", JDict [("price", JInt 500)]);
          ("accepted_at", JStr "2023-03-01T09:30:00Z");
          ("id", JStr "ghi") ].

(** A verified trade with neither a party nor a date *)
Definition bare_trade : json :=
  JDict [ ("state", JStr "verified") ].

(** Records the data model excludes *)
Definition null_buyer_trade : json :=
  JDict [ ("state", JStr "pending"); ("buyer", JNull) ].

Definition numeric_contract_trade : json :=
  JDict [ ("state", JStr "verified");
          ("buyer", party "123");
          ("contract", JInt 5);
          ("accepted_at", JStr "2023-05-01T12:00:00Z") ].

Definition numeric_date_trade : json :=
  JDict [ ("state", JStr "verified");
          ("buyer", party "123");
          ("accepted_at", JInt 1682942400) ].

(** A record of the right shape whose price no float can hold *)
Definition overpriced_trade : json :=
  JDict [ ("state", JStr "verified");
          ("buyer", party "123");
          ("contract", JDict [("price", JInt (10 ^ 400))]);
          ("accepted_at", JStr "2023-05-01T12:00:00Z") ].

Definition history : list json :=
  [ verified_trade; pending_trade; foreign_trade; undated_trade;
    earlier_trade ].

Definition page (trades : list json) : outcome :=
  Response 200 (Some (JDict [("trades", JList trades)])).

Definition half_second : duration.
Proof. refine (mk_duration (1 # 2) _). discriminate. Defined.

Definition no_time : duration.
Proof. refine (mk_duration 0 _). discriminate. Defined.

Definition serve (pages : list (string * outcome)) (u : string) : outcome :=
  match List.find (fun p => String.eqb u (fst p)) pages with
  | Some p => snd p
  | None => Response 404 None
  end.

(** A server with 700 purchases, on two pages, and one sale *)
Definition two_pages : environment :=
  mk_environment
    (serve [ (trades_url "buyer" 0, page (List.repeat verified_trade 500));
             (trades_url "buyer" 1, page (List.repeat earlier_trade 200));
             (trades_url "seller" 0, page [verified_trade]) ])
    (fun _ => no_time) (fun _ => half_second) no_time.

(** A server whose second page of purchases is refused *)
Definition second_page_refused : environment :=
  mk_environment
    (serve [ (trades_url "buyer" 0, page (List.repeat verified_trade 500));
             (trades_url "buyer" 1, Response 429 None) ])
    (fun _ => no_time) (fun _ => half_second) no_time.

(** A server for a user nobody knows: trades without parties *)
Definition anonymous_server : environment :=
  mk_environment
    (serve [ (trades_url "buyer" 0, page [anonymous_trade; verified_trade]);
             (trades_url "seller" 0, page [anonymous_trade; bare_trade]) ])
    (fun _ => no_time) (fun _ => half_second) no_time.

Definition empty_world : world := mk_world ∅ 1700000000 [].

(** The fields of records that stop short of the date: of another
    buyer, not verified, and verified without a date, each with a number
    for a contract *)
Definition foreign_broken : dict :=
  [ ("state", JStr "verified");
    ("buyer", party "999");
    ("contract", JInt 5);
    ("accepted_at", JInt 7) ].

Definition pending_broken : dict :=
  [ ("state", JStr "pending");
    ("buyer", party "123");
    ("contract", JInt 5);
    ("accepted_at", JInt 7) ].

Definition undated_broken : dict :=
  [ ("state", JStr "verified");
    ("buyer", party "123");
    ("contract", JInt 5) ].

(** A sale whose contract is a number *)
Definition broken_sale : json :=
  JDict [ ("state", JStr "verified");
          ("seller", party "123");
          ("contract", JInt 5);
          ("accepted_at", JStr "2023-05-01T12:00:00Z") ].

(** A purchase of an item whose name is [null] and whose float is no
    number, without an id *)
Definition nameless_trade : json :=
  JDict [ ("state", JStr "verified");
          ("buyer", party "123");
          ("contract",
           JDict [ ("price", JInt 150);
                   ("item", JDict [ ("market_hash_name", JNull);
                                    ("float_value", JStr "n/a") ]) ]);
          ("accepted_at", JStr "2023-04-01T08:00:00Z") ].

(** A second purchase on the day of [verified_trade] *)
Definition same_day_trade : json :=
  JDict [ ("state", JStr "verified");
          ("buyer", party "123");
          ("contract", JDict [("price", JInt 700)]);
          ("accepted_at", JStr "2023-01-15T23:59:59Z");
          ("id", JStr "xyz") ].

(** Verified trades with nobody on them that the data model excludes: one
    whose [seller] is [null], one whose price no float can hold *)
Definition null_seller_trade : json :=
  JDict [ ("state", JStr "verified");
          ("seller", JNull);
          ("contract", JDict [("price", JInt 500)]);
          ("accepted_at", JStr "2023-03-02T10:00:00Z");
          ("id", JStr "jkl") ].

Definition anonymous_overpriced_trade : json :=
  JDict [ ("state", JStr "verified");
          ("contract", JDict [("price", JInt (10 ^ 400))]);
          ("accepted_at", JStr "2023-03-01T09:30:00Z") ].

(** A server with one purchase, and a sale that cannot be processed *)
Definition broken_sales : environment :=
  mk_environment
    (serve [ (trades_url "buyer" 0, page [verified_trade]);
             (trades_url "seller" 0, page [broken_sale]) ])
    (fun _ => no_time) (fun _ => half_second) no_time.

(** A server that refuses every request *)
Definition refusing_server : environment :=
  mk_environment (fun _ => Response 401 None)
    (fun _ => no_time) (fun _ => half_second) no_time.

(** A world that holds the exports of an earlier run, and another file *)
Definition used_world : world :=
  mk_world (<["csfloat_purchases.csv" := "purchases of an earlier run"]>
              (<["csfloat_sales.csv" := "sales of an earlier run"]>
                 (<["notes.txt" := "kept"]> ∅)))
           1700000000 [].

End Samples.

(** ** The script *)

Section Library.

(** Library functions the script calls and this file does not look into:
    [datetime.fromisoformat] ([None] for its [ValueError]) and
    [strftime('%Y-%m-%d')], [float(s)] on a [str] ([None] for its
    [ValueError]), and [str(x)] on a float and on any other object, as the
    [csv] writer applies it. *)
Variable fromisoformat : string -> option Datetime.datetime.
Variable strftime_Ymd : Datetime.datetime -> string.
Variable float_of_str : string -> option pyfloat.
Variable str_of_float : pyfloat -> string.
Variable str_of_json : json -> string.

(** [float(value)] *)
Definition to_float (value : json) : result pyfloat :=
  match value with
  | JInt z => float_of_int z
  | JBool b => Ok (if b then one else zero)
  | JFloat x => Ok x
  | JStr s =>
      match float_of_str s with
      | Some x => Ok x
      | None => Raise ValueError
      end
  | _ => Raise TypeError
  end.

Definition safe_float (value : json) (default : option pyfloat)
    : result (option pyfloat) :=
  try_except
    (if is_none value then Ok default
     else x ← to_float value; Ok (Some x))
    [ValueError; TypeError]
    (Ok default).

Definition format_price (price_in_cents : json) (is_sale : bool)
    : result pyfloat :=
  try_except
    (if is_none price_in_cents then Ok zero
     else
       q ← div_100 price_in_cents;
       price ← round q 2;
       if is_sale then round (fmul price fee_factor) 2
       else Ok price)
    [ValueError; TypeError]
    (Ok zero).

(** The [try] / [except ValueError] of [process_trades], on the date
    string it has chosen. *)
Definition format_date (date_str : json) : result string :=
  try_except
    (s ← str_replace date_str "Z" "+00:00";
     match fromisoformat s with
     | Some d => Ok (strftime_Ymd d)
     | None => Raise ValueError
     end)
    [ValueError]
    (has_T ← str_contains "T" date_str;
     if has_T : bool then str_split_head date_str "T"
     else str_slice_to date_str 10).

(** *** Fetching *)

(** The statements of the [try] block once the request has come back,
    on the accumulator [all_trades], which [extend] updates in place: the
    accumulator as the block leaves it, and whether the loop goes on to
    the next page ([Ok true]), breaks ([Ok false]) or an exception left
    the block. *)
Definition read_page (o : outcome) (all_trades : list json)
    : list json * result bool :=
  match o with
  | Failed e => (all_trades, Raise e)
  | Response status body =>
      if negb (status =? 200)%Z then (all_trades, Ok false)
      else
        match body with
        | None => (all_trades, Raise JSONDecodeError)
        | Some data =>
            match get data "trades" (JList []) with
            | Raise e => (all_trades, Raise e)
            | Ok trades =>
                if negb (truthy trades) then (all_trades, Ok false)
                else
                  match extend all_trades trades with
                  | Raise e => (all_trades, Raise e)
                  | Ok all_trades' =>
                      (all_trades',
                       n ← len trades;
                       Ok (negb (n <? 500)%nat))
                  end
            end
        end
  end.

Record fetched : Type := mk_fetched {
  all_trades : list json;
  fetch_trace : list event;
  fetch_end : Q
}.

(** How far a fetch has come when the fuel is spent: it has returned, or
    it is still running, with the events so far. *)
Inductive fetching : Type :=
| Returned (f : fetched)
| Running (tr : list event).

Definition events (r : fetching) : list event :=
  match r with
  | Returned f => fetch_trace f
  | Running tr => tr
  end.

Definition after (evs : list event) (r : fetching) : fetching :=
  match r with
  | Returned f =>
      Returned (mk_fetched (all_trades f) (evs ++ fetch_trace f) (fetch_end f))
  | Running tr => Running (evs ++ tr)
  end.

(** The [while True] loop from the state [(page, all_trades,
    last_request_time)] at clock reading [now]. *)
Fixpoint fetch_loop (env : environment) (api_key role : string)
    (fuel page : nat) (all_trades : list json)
    (last_request_time now : Q) : fetching :=
  match fuel with
  | O => Running []
  | S fuel' =>
      let u := trades_url role page in
      let current_time := now in
      let time_since_last_request := (current_time - last_request_time)%Q in
      let wait_time := (RATE_LIMIT - time_since_last_request)%Q in
      let waits := negb (Qle_bool RATE_LIMIT time_since_last_request) in
      let slept := if waits then [Slept current_time wait_time] else [] in
      let now := if waits then (now + wait_time)%Q else now in
      let now := (now + seconds (lag env u))%Q in
      let last_request_time := now in
      let evs := slept ++ [Requested (mk_request u api_key) last_request_time] in
      let now := (now + seconds (busy env u))%Q in
      match read_page (server env u) all_trades with
      | (all_trades, Ok true) =>
          after evs
            (fetch_loop env api_key role fuel' (S page) all_trades
               last_request_time now)
      | (all_trades, Ok false)
      | (all_trades, Raise _) =>      (* [break], [except Exception: break] *)
          Returned (mk_fetched all_trades evs now)
      end
  end.

Definition fetch_csfloat_trades (env : environment) (fuel : nat)
    (now : Q) (api_key role : string) : fetching :=
  fetch_loop env api_key role fuel 0 [] 0%Q now.

(** *** The vocabulary of the specification, for the fetch *)

Definition success (o : outcome) : bool :=
  match o with
  | Response status _ => (status =? 200)%Z
  | Failed _ => false
  end.

(** What a page contributes to the result of a fetch: the elements of the
    [trades] entry of a successful response. *)
Definition records (o : outcome) : list json :=
  match o with
  | Response _ (Some (JDict d)) =>
      if success o then
        match lookup "trades" d with
        | Some v => match iter v with Ok l => l | Raise _ => [] end
        | None => []
        end
      else []
  | _ => []
  end.

(** The three reasons to stop after a page, as the specification lists
    them. *)
Definition stops (o : outcome) : bool :=
  (List.length (records o) =? 0)%nat
  || (List.length (records o) <? 500)%nat
  || negb (success o).

(** A non-success response or an exception of the transport *)
Definition failed (o : outcome) : bool :=
  match o with
  | Failed _ => true
  | Response status _ => negb (status =? 200)%Z
  end.

Definition page_outcome (env : environment) (role : string) (page : nat)
    : outcome :=
  server env (trades_url role page).

(** Page [n] is the first after which the fetch stops. *)
Definition last_page (env : environment) (role : string) (n : nat) : Prop :=
  stops (page_outcome env role n) = true
  /\ forall k, (k < n)%nat -> stops (page_outcome env role k) = false.

(** The records of pages [0 .. n-1], in order *)
Definition pages_upto (env : environment) (role : string) (n : nat)
    : list json :=
  List.concat (List.map (fun k => records (page_outcome env role k))
                        (List.seq 0 n)).

Definition requests_upto (api_key role : string) (n : nat) : list request :=
  List.map (fun k => mk_request (trades_url role k) api_key) (List.seq 0 n).

Fixpoint requests (tr : list event) : list request :=
  match tr with
  | [] => []
  | Requested req _ :: tr' => req :: requests tr'
  | Slept _ _ :: tr' => requests tr'
  end.

(** The pacing of a trace, given the stamp [last] of the request before
    it (0 before the first): every request is stamped at least
    [RATE_LIMIT] after the previous one, and every suspension is for what
    was missing to [RATE_LIMIT] when it began and ends before the next
    request is stamped. *)
Fixpoint paced (last : Q) (tr : list event) : Prop :=
  match tr with
  | [] => True
  | Requested _ t :: tr' => (last + RATE_LIMIT <= t)%Q /\ paced t tr'
  | Slept c w :: tr' =>
      (c - last < RATE_LIMIT)%Q
      /\ w = (RATE_LIMIT - (c - last))%Q
      /\ match tr' with
         | Requested _ t :: _ => (c + w <= t)%Q
         | _ => False
         end
      /\ paced last tr'
  end.

Fixpoint stamps (tr : list event) : list Q :=
  match tr with
  | [] => []
  | Requested _ t :: tr' => t :: stamps tr'
  | Slept _ _ :: tr' => stamps tr'
  end.

Section Config.

(** The two values read from the environment when the module loads. *)
Variable STEAM_ID : option string.
Variable API_KEY : option string.

(** [role == r and trade.get(r, {}).get('steam_id') != STEAM_ID] *)
Definition other_party (role r : string) (trade : json) : result bool :=
  if String.eqb role r then
    party ← get trade r (JDict []);
    steam_id ← get party "steam_id" JNull;
    Ok (ne_optstr steam_id STEAM_ID)
  else Ok false.

(** The body of the loop of [process_trades]: [None] for [continue],
    the row to append otherwise. *)
Definition process_trade (role : string) (trade : json)
    : result (option row) :=
  skip ← other_party role "buyer" trade;
  if skip : bool then Ok None else
  skip ← other_party role "seller" trade;
  if skip : bool then Ok None else
  state ← get trade "state" JNull;
  if ne_str state "verified" then Ok None else
  contract ← get trade "contract" (JDict []);
  item ← get contract "item" (JDict []);
  date_str ← get trade "accepted_at" JNull;
  date_str ← (if negb (truthy date_str)
              then get trade "verified_at" JNull
              else Ok date_str);
  if negb (truthy date_str) then Ok None else
  formatted_date ← format_date date_str;
  item_type ← get item "type_name" (JStr "Unknown");
  name ← get item "market_hash_name" (JStr "Unknown");
  cents ← get contract "price" JNull;
  price ← format_price cents (String.eqb role "seller");
  fv ← get item "float_value" JNull;
  fl ← safe_float fv None;
  trade_id ← get trade "id" (JStr EmptyString);
  Ok (Some (mk_row name price fl item_type formatted_date trade_id)).

Fixpoint process_loop (role : string) (trades : list json)
    (processed_trades : list row) : result (list row) :=
  match trades with
  | [] => Ok processed_trades
  | trade :: rest =>
      r ← process_trade role trade;
      process_loop role rest
        (match r with
         | Some processed_trade => processed_trades ++ [processed_trade]
         | None => processed_trades
         end)
  end.

Definition process_trades (trades : list json) (role : string)
    : result (list row) :=
  processed_trades ← process_loop role trades [];
  Ok (sort_by_date processed_trades).

(** *** Export *)

Definition quotechar : ascii := ascii_of_nat 34.
Definition CR : ascii := ascii_of_nat 13.
Definition LF : ascii := ascii_of_nat 10.

Definition special (c : ascii) : bool :=
  Ascii.eqb c "," || Ascii.eqb c quotechar || Ascii.eqb c CR
  || Ascii.eqb c LF.

Fixpoint needs_quotes (s : string) : bool :=
  match s with
  | EmptyString => false
  | String c s' => special c || needs_quotes s'
  end.

Fixpoint double_quotes (s : string) : string :=
  match s with
  | EmptyString => EmptyString
  | String c s' =>
      if Ascii.eqb c quotechar
      then String c (String c (double_quotes s'))
      else String c (double_quotes s')
  end.

(** One field as the [csv] writer emits it in its default dialect:
    quoted only when it holds a comma, a quote or a line break. *)
Definition csv_field (s : string) : string :=
  if needs_quotes s
  then String quotechar (double_quotes s ++ String quotechar EmptyString)
  else s.

Definition csv_record (fields : list string) : string :=
  String.concat "," (List.map csv_field fields)
    ++ String CR (String LF EmptyString).

(** The text of a cell: [None] is written empty, a [str] as it is and
    anything else through [str()]. *)
Definition cell (v : json) : string :=
  match v with
  | JNull => EmptyString
  | JStr s => s
  | JFloat x => str_of_float x
  | _ => str_of_json v
  end.

Definition row_cells (r : row) : list string :=
  [ cell (item_name r);
    str_of_float (price r);
    match float r with
    | Some x => str_of_float x
    | None => EmptyString
    end;
    cell (type r);
    date r;
    cell (id r) ].

Definition header : list string :=
  [ "Item Name"; "Price"; "Float"; "Type"; "Date";
    "CSFloat Transaction ID" ].

Definition csv_text (trades : list row) : string :=
  csv_record header
    ++ String.concat EmptyString
         (List.map (fun r => csv_record (row_cells r)) trades).

(** UTF-8 of a string of code points below 256 *)
Fixpoint utf8 (s : string) : string :=
  match s with
  | EmptyString => EmptyString
  | String c s' =>
      let n := nat_of_ascii c in
      if (n <? 128)%nat then String c (utf8 s')
      else String (ascii_of_nat (192 + n / 64))
             (String (ascii_of_nat (128 + n mod 64)) (utf8 s'))
  end.

(** [open(filename, 'w')] truncates: the file holds what this call
    writes and nothing else. *)
Definition export_to_csv (trades : list row) (filename : string)
    (w : world) : world :=
  mk_world (<[filename := utf8 (csv_text trades)]> (files w))
           (clock w) (trace w).

(** *** The run *)

(** [process_trades] then [export_to_csv], as [async_main] chains them:
    the world left behind and the exception that escaped, if any. *)
Definition normalize_and_export (trades : list json)
    (role filename : string) (w : world) : world * option exn :=
  match process_trades trades role with
  | Ok processed => (export_to_csv processed filename w, None)
  | Raise e => (w, Some e)
  end.

(** Fetch, process and export for one role; [None] when the fetch does
    not return within the fuel. *)
Definition export_role (env : environment) (fuel : nat)
    (api_key role filename : string) (w : world)
    : option (world * option exn) :=
  match fetch_csfloat_trades env fuel (clock w) api_key role with
  | Returned f =>
      Some (normalize_and_export (all_trades f) role filename
              (mk_world (files w) (fetch_end f) (trace w ++ fetch_trace f)))
  | Running _ => None
  end.

(** [await asyncio.sleep(RATE_LIMIT)] between the two roles *)
Definition pause (env : environment) (w : world) : world :=
  mk_world (files w)
           (clock w + RATE_LIMIT + seconds (between_fetches env))%Q
           (trace w ++ [Slept (clock w) RATE_LIMIT]).

Definition async_main (env : environment) (fuel : nat) (w : world)
    : option (world * option exn) :=
  if optstr_falsy API_KEY then Some (w, None)
  else
    let api_key := default EmptyString API_KEY in
    match export_role env fuel api_key "buyer" "csfloat_purchases.csv" w with
    | Some (w, None) =>
        export_role env fuel api_key "seller" "csfloat_sales.csv"
          (pause env w)
    | stopped => stopped
    end.

(** ** The vocabulary of the specification *)

(** The value under a path of keys, when every step is an object that
    has the key. *)
Fixpoint at_path (path : list string) (o : json) : option json :=
  match path with
  | [] => Some o
  | k :: path' =>
      match o with
      | JDict d =>
          match lookup k d with
          | Some v => at_path path' v
          | None => None
          end
      | _ => None
      end
  end.

(** A field of a raw trade; a missing one reads as [None]. *)
Definition field (path : list string) (trade : json) : json :=
  default JNull (at_path path trade).

(** The three filtering conditions, as the specification words them. *)
Definition state_verified (trade : json) : bool :=
  match field ["state"] trade with
  | JStr s => String.eqb s "verified"
  | _ => false
  end.

Definition identity_matches (r : Role) (trade : json) : bool :=
  match STEAM_ID, field [role_name r; "steam_id"] trade with
  | Some s, JStr s' => String.eqb s' s
  | None, JNull => true
  | _, _ => false
  end.

(** Present and not empty *)
Definition present (v : json) : bool :=
  match v with
  | JStr (String _ _) => true
  | _ => false
  end.

Definition has_date (trade : json) : bool :=
  present (field ["accepted_at"] trade)
  || present (field ["verified_at"] trade).

Definition keeps (r : Role) (trade : json) : bool :=
  state_verified trade && identity_matches r trade && has_date trade.

(** [accepted_at] preferred, else [verified_at] *)
Definition chosen_date (trade : json) : json :=
  if truthy (field ["accepted_at"] trade)
  then field ["accepted_at"] trade
  else field ["verified_at"] trade.

(** The three tiers on a date string *)
Definition three_tier (s : string) : string :=
  match fromisoformat (replace "Z" "+00:00" s) with
  | Some d => strftime_Ymd d
  | None =>
      if contains "T" s then split_head "T" s
      else slice_to 10 s
  end.

(** The shape of a raw trade in the data model: an object whose nested
    records are objects when present and whose timestamps are strings
    when present; its two numbers convert without raising. *)
Definition object_or_absent (v : option json) : bool :=
  match v with
  | None | Some (JDict _) => true
  | _ => false
  end.

Definition string_or_absent (v : option json) : bool :=
  match v with
  | None | Some JNull | Some (JStr _) => true
  | _ => false
  end.

Definition converts {A} (c : result A) : bool :=
  match c with Ok _ => true | Raise _ => false end.

Definition well_formed (r : Role) (trade : json) : bool :=
  match trade with
  | JDict d =>
      object_or_absent (lookup "buyer" d)
      && object_or_absent (lookup "seller" d)
      && object_or_absent (lookup "contract" d)
      && object_or_absent (at_path ["contract"; "item"] trade)
      && string_or_absent (lookup "accepted_at" d)
      && string_or_absent (lookup "verified_at" d)
      && converts (format_price (field ["contract"; "price"] trade)
                                (is_seller r))
      && converts (safe_float
                     (field ["contract"; "item"; "float_value"] trade)
                     None)
  | _ => false
  end.

(** The price of the specification, a Python expression: for a seller
    [round(round(c/100, 2) * 0.98, 2)], for a buyer [round(c/100, 2)]. *)
Definition spec_price (r : Role) (c : Z) : result pyfloat :=
  match r with
  | Seller =>
      q ← int_truediv c 100;
      p ← round q 2;
      round (fmul p fee_factor) 2
  | Buyer =>
      q ← int_truediv c 100;
      round q 2
  end.


(** Ascending order of two rows by date, lexicographic on the strings *)
Definition date_le (a b : row) : Prop :=
  String.leb (date a) (date b) = true.

(** A price that is there but is no number *)
Definition unparseable (v : json) : bool :=
  match v with
  | JStr _ | JList _ | JDict _ => true
  | _ => false
  end.

Definition is_str (v : json) : bool :=
  match v with JStr _ => true | _ => false end.

(** A record that gets as far as the parsing of its date: it passes the
    two filters before it, and what the script reads on the way is an
    object. *)
Definition reaches_parse (r : Role) (trade : json) : bool :=
  match trade with
  | JDict d =>
      object_or_absent (lookup (role_name r) d)
      && object_or_absent (lookup "contract" d)
      && identity_matches r trade
      && state_verified trade
      && truthy (chosen_date trade)
  | _ => false
  end.

(** Two stamps at least [RATE_LIMIT] apart *)
Definition apart (a b : Q) : Prop := (a + RATE_LIMIT <= b)%Q.

(** A suspension of a positive time, of [RATE_LIMIT] at most *)
Definition short_sleep (ev : event) : Prop :=
  match ev with
  | Slept _ wait_time => (0 < wait_time)%Q /\ (wait_time <= RATE_LIMIT)%Q
  | Requested _ _ => True
  end.


(** ** Properties *)

(** *** Sorting *)

Lemma insert_by_date_perm r l : Permutation (r :: l) (insert_by_date r l).
Proof.
  induction l as [|r' l IH]; simpl; [reflexivity|].
  destruct (String.leb (date r) (date r')); [reflexivity|].
  rewrite perm_swap. now apply perm_skip.
Qed.

Lemma sort_by_date_perm l : Permutation l (sort_by_date l).
Proof.
  induction l as [|r l IH]; simpl; [constructor|].
  rewrite <- insert_by_date_perm. now apply perm_skip.
Qed.

Lemma insert_by_date_hd r r0 l :
  date_le r0 r -> HdRel date_le r0 l -> HdRel date_le r0 (insert_by_date r l).
Proof.
  intros Hr Hl. destruct l as [|r' l]; simpl; [now constructor|].
  destruct (String.leb (date r) (date r')); constructor; auto.
  now inversion Hl.
Qed.

Lemma insert_by_date_sorted r l :
  Sorted date_le l -> Sorted date_le (insert_by_date r l).
Proof.
  induction 1 as [|r' l Hs IH Hhd]; simpl; [repeat constructor|].
  destruct (String.leb (date r) (date r')) eqn:E.
  - constructor; [now constructor|]. now constructor.
  - constructor; [assumption|].
    apply insert_by_date_hd; [|assumption].
    unfold date_le. destruct (String.leb_total (date r) (date r')); congruence.
Qed.

Lemma sort_by_date_sorted l : Sorted date_le (sort_by_date l).
Proof.
  induction l; simpl; [constructor|]. now apply insert_by_date_sorted.
Qed.

Lemma Sorted_adjacent {A} (R : A -> A -> Prop) (l : list A) i a b :
  Sorted R l -> l !! i = Some a -> l !! S i = Some b -> R a b.
Proof.
  intros Hs. revert i. induction Hs as [|x l Hs IH Hhd]; intros i Ha Hb.
  - discriminate.
  - destruct i as [|i]; simpl in *.
    + injection Ha as <-. destruct l; [discriminate|].
      simpl in Hb. injection Hb as <-. now inversion Hhd.
    + eauto.
Qed.

(** *** Running a computation that may raise *)

Ltac ret := cbn [mbind result_bind Py.bind] in *.

Lemma bind_Ok {A B} (c : result A) (k : A -> result B) (b : B) :
  (x ← c; k x) = Ok b -> exists a, c = Ok a /\ k a = Ok b.
Proof. destruct c as [a|e]; simpl; [eauto|discriminate]. Qed.

Lemma get_dict d k v : get (JDict d) k v = Ok (default v (lookup k d)).
Proof. simpl. now destruct (lookup k d). Qed.

Lemma get_Ok o k v x :
  get o k v = Ok x -> exists d, o = JDict d /\ x = default v (lookup k d).
Proof.
  destruct o; try discriminate. rewrite get_dict. intros [= <-]. eauto.
Qed.

Lemma field_top d k : field [k] (JDict d) = default JNull (lookup k d).
Proof. unfold field. simpl. now destruct (lookup k d). Qed.

Lemma field_nested d k k' c :
  default (JDict []) (lookup k d) = JDict c ->
  field [k; k'] (JDict d) = default JNull (lookup k' c).
Proof.
  unfold field. simpl. destruct (lookup k d) as [v|]; simpl.
  - intros ->. now destruct (lookup k' c).
  - now intros [= <-].
Qed.

(** *** The date of a row *)

Lemma format_date_str s : format_date (JStr s) = Ok (three_tier s).
Proof.
  unfold format_date, three_tier. simpl.
  destruct (fromisoformat _); simpl; [reflexivity|].
  now destruct (contains "T" s).
Qed.

Lemma format_date_not_str v :
  (forall s, v <> JStr s) -> format_date v = Raise AttributeError.
Proof. destruct v; intros H; try reflexivity. now destruct (H s). Qed.

Lemma format_date_Ok v out :
  format_date v = Ok out -> exists s, v = JStr s /\ out = three_tier s.
Proof.
  destruct v; try discriminate.
  rewrite format_date_str. intros [= <-]. eauto.
Qed.

(** What a row that [process_trade] returns was made from. *)
Lemma process_trade_Ok role trade r :
  process_trade role trade = Ok (Some r) ->
  exists s,
    chosen_date trade = JStr s /\ s <> EmptyString
    /\ date r = three_tier s
    /\ format_price (field ["contract"; "price"] trade)
         (String.eqb role "seller") = Ok (price r)
    /\ state_verified trade = true.
Proof.
  unfold process_trade. intros H.
  apply bind_Ok in H as (skip1 & _ & H). destruct skip1; [discriminate|].
  apply bind_Ok in H as (skip2 & _ & H). destruct skip2; [discriminate|].
  apply bind_Ok in H as (state & Hstate & H).
  apply get_Ok in Hstate as (d & -> & ->).
  destruct (ne_str _ _) eqn:Hver in H; [discriminate|].
  rewrite !get_dict in H. ret.
  apply bind_Ok in H as (item & Hitem & H).
  apply get_Ok in Hitem as (c & Hc & ->).
  apply bind_Ok in H as (ds & Hds & H).
  assert (ds = chosen_date (JDict d)) as ->.
  { revert Hds. unfold chosen_date. rewrite !field_top.
    destruct (truthy (default JNull (lookup "accepted_at" d)));
      simpl negb; cbv iota; now intros [= <-]. }
  destruct (truthy (chosen_date _)) eqn:Htruthy; [|discriminate].
  simpl negb in H. cbv iota in H.
  apply bind_Ok in H as (fd & Hfd & H).
  apply format_date_Ok in Hfd as (s & Hs & ->).
  rewrite Hc in H. rewrite !get_dict in H. ret.
  apply bind_Ok in H as (ty & Hty & H).
  apply get_Ok in Hty as (i & Hi & ->).
  rewrite Hi in H. rewrite !get_dict in H. ret.
  apply bind_Ok in H as (p & Hp & H).
  apply bind_Ok in H as (fl & _ & H).
  injection H as <-. simpl.
  exists s. repeat split; try assumption.
  - intros ->. rewrite Hs in Htruthy. discriminate.
  - now rewrite (field_nested _ _ _ _ Hc).
  - unfold state_verified. rewrite field_top.
    destruct (default JNull (lookup "state" d)); try discriminate.
    simpl in Hver. now destruct (String.eqb s0 "verified").
Qed.


(** *** The loop body on a well-formed record *)

Lemma object_or_absent_dict v :
  object_or_absent v = true -> exists c, default (JDict []) v = JDict c.
Proof. destruct v as [[]|]; try discriminate; simpl; eauto. Qed.

Lemma field_nested3 d k k' k'' c i :
  default (JDict []) (lookup k d) = JDict c ->
  default (JDict []) (lookup k' c) = JDict i ->
  field [k; k'; k''] (JDict d) = default JNull (lookup k'' i).
Proof.
  unfold field. simpl. destruct (lookup k d) as [v|]; simpl.
  - intros ->. destruct (lookup k' c) as [v'|]; simpl.
    + intros ->. now destruct (lookup k'' i).
    + now intros [= <-].
  - intros [= <-]. simpl. now intros [= <-].
Qed.

Lemma at_path_nested d k k' c :
  default (JDict []) (lookup k d) = JDict c ->
  at_path [k; k'] (JDict d) = lookup k' c.
Proof.
  simpl. destruct (lookup k d) as [v|]; simpl.
  - intros ->. now destruct (lookup k' c).
  - now intros [= <-].
Qed.

Lemma ne_optstr_identity r trade :
  ne_optstr (field [role_name r; "steam_id"] trade) STEAM_ID
  = negb (identity_matches r trade).
Proof.
  unfold identity_matches, ne_optstr, ne_str.
  destruct STEAM_ID, (field _ trade); reflexivity.
Qed.

Lemma other_party_same r d :
  object_or_absent (lookup (role_name r) d) = true ->
  other_party (role_name r) (role_name r) (JDict d)
  = Ok (negb (identity_matches r (JDict d))).
Proof.
  intros H. apply object_or_absent_dict in H as (p & Hp).
  unfold other_party. rewrite String.eqb_refl, get_dict, Hp. ret.
  rewrite get_dict. ret.
  now rewrite <- ne_optstr_identity, (field_nested _ _ _ _ Hp).
Qed.

Lemma identity_filter r d {A} (k : result (option A)) :
  object_or_absent (lookup (role_name r) d) = true ->
  (skip ← other_party (role_name r) "buyer" (JDict d);
   if skip : bool then Ok None else
   skip ← other_party (role_name r) "seller" (JDict d);
   if skip : bool then Ok None else k)
  = if identity_matches r (JDict d) then k else Ok None.
Proof.
  intros H. pose proof (other_party_same r d H) as Hsame.
  destruct r; simpl role_name in *.
  - rewrite Hsame. ret.
    destruct (identity_matches Buyer (JDict d)); reflexivity.
  - change (other_party "seller" "buyer" (JDict d)) with (Ok (A:=bool) false).
    ret. rewrite Hsame. ret.
    destruct (identity_matches Seller (JDict d)); reflexivity.
Qed.

Lemma ne_str_verified d :
  ne_str (default JNull (lookup "state" d)) "verified"
  = negb (state_verified (JDict d)).
Proof.
  unfold state_verified. rewrite field_top.
  now destruct (default JNull (lookup "state" d)).
Qed.

Lemma chosen_date_wf d :
  string_or_absent (lookup "accepted_at" d) = true ->
  string_or_absent (lookup "verified_at" d) = true ->
  truthy (chosen_date (JDict d)) = has_date (JDict d)
  /\ (has_date (JDict d) = true ->
      exists s, chosen_date (JDict d) = JStr s).
Proof.
  unfold chosen_date, has_date. rewrite !field_top.
  destruct (lookup "accepted_at" d) as [[| | | |[|] | |]|];
    try discriminate; intros _;
    destruct (lookup "verified_at" d) as [[| | | |[|] | |]|];
    try discriminate; intros _; simpl; split; try reflexivity;
    try discriminate; eauto.
Qed.

Lemma converts_Ok {A} (c : result A) :
  converts c = true -> exists a, c = Ok a.
Proof. destruct c; [eauto|discriminate]. Qed.

Lemma is_seller_eqb r : String.eqb (role_name r) "seller" = is_seller r.
Proof. now destruct r. Qed.

(** On a well-formed record the body of the loop raises nothing, and
    it yields a row exactly when the record meets the three
    conditions. *)
Lemma process_trade_well_formed r trade :
  well_formed r trade = true ->
  if keeps r trade
  then exists row, process_trade (role_name r) trade = Ok (Some row)
  else process_trade (role_name r) trade = Ok None.
Proof.
  destruct trade as [| | | | | |d]; try discriminate.
  unfold well_formed. rewrite !andb_true_iff.
  intros [[[[[[[Hb Hs] Hc] Hi] Ha] Hv] Hp] Hf].
  assert (object_or_absent (lookup (role_name r) d) = true) as Hr
    by now destruct r.
  destruct (object_or_absent_dict _ Hc) as (c & Hc').
  rewrite (at_path_nested _ _ _ _ Hc') in Hi.
  destruct (object_or_absent_dict _ Hi) as (i & Hi').
  rewrite (field_nested _ _ _ _ Hc') in Hp.
  rewrite (field_nested3 _ _ _ _ _ _ Hc' Hi') in Hf.
  destruct (chosen_date_wf d Ha Hv) as [Htruthy Hstr].
  apply converts_Ok in Hp as (p & Hp), Hf as (fl & Hf).
  unfold process_trade. rewrite (identity_filter r d _ Hr).
  unfold keeps.
  destruct (identity_matches r (JDict d));
    [|now rewrite andb_false_r].
  rewrite andb_true_r.
  rewrite !get_dict. ret. rewrite ne_str_verified.
  destruct (state_verified (JDict d)); simpl negb; cbv iota;
    [|reflexivity].
  rewrite Hc'. rewrite !get_dict. ret. rewrite Hi'.
  rewrite !get_dict. ret.
  assert ((if negb (truthy (default JNull (lookup "accepted_at" d)))
           then Ok (default JNull (lookup "verified_at" d))
           else Ok (default JNull (lookup "accepted_at" d)))
          = Ok (chosen_date (JDict d))) as ->.
  { unfold chosen_date. rewrite !field_top.
    now destruct (truthy (default JNull (lookup "accepted_at" d))). }
  ret. rewrite Htruthy.
  destruct (has_date (JDict d)); simpl negb; cbv iota; [|reflexivity].
  destruct Hstr as (s & ->); [reflexivity|].
  rewrite format_date_str. ret.
  rewrite is_seller_eqb, Hp. ret. rewrite Hf. ret. simpl. eauto.
Qed.

(** *** The loop *)

Lemma process_loop_well_formed r trades acc :
  Forall (fun t => well_formed r t = true) trades ->
  exists rows,
    Forall2 (fun t row => process_trade (role_name r) t = Ok (Some row))
            (List.filter (keeps r) trades) rows
    /\ process_loop (role_name r) trades acc = Ok (acc ++ rows).
Proof.
  intros Hwf. revert acc.
  induction Hwf as [|t trades Ht _ IH]; intros acc; simpl.
  - exists []. split; [constructor|]. now rewrite app_nil_r.
  - pose proof (process_trade_well_formed r t Ht) as Hbody.
    destruct (keeps r t).
    + destruct Hbody as (row & Hrow). rewrite Hrow. ret.
      destruct (IH (acc ++ [row])) as (rows & Hrows & ->).
      exists (row :: rows). split; [now constructor|].
      now rewrite <- app_assoc.
    + rewrite Hbody. ret. apply IH.
Qed.

Lemma process_loop_Ok role trades acc out :
  process_loop role trades acc = Ok out ->
  exists rows,
    out = acc ++ rows
    /\ Forall (fun row => exists t,
                 In t trades /\ process_trade role t = Ok (Some row))
              rows.
Proof.
  revert acc. induction trades as [|t trades IH]; intros acc; simpl.
  - intros [= <-]. exists []. split; [now rewrite app_nil_r|constructor].
  - intros H. apply bind_Ok in H as (r & Hr & H).
    apply IH in H as (rows & -> & Hrows).
    assert (Forall (fun row => exists t0, (t = t0 \/ In t0 trades)
                      /\ process_trade role t0 = Ok (Some row)) rows)
      as Hrows'.
    { eapply Forall_impl; [|exact Hrows].
      intros row (t0 & Hin & Ht0). eauto. }
    destruct r as [row|].
    + exists (row :: rows). split; [now rewrite <- app_assoc|].
      constructor; eauto.
    + eauto.
Qed.

Lemma process_loop_Raise role before trade after acc e :
  process_trade role trade = Raise e ->
  exists e', process_loop role (before ++ trade :: after) acc = Raise e'.
Proof.
  intros He. revert acc.
  induction before as [|t before IH]; intros acc; simpl.
  - rewrite He. ret. eauto.
  - destruct (process_trade role t); ret; eauto.
Qed.

Lemma process_trades_Ok role trades rows :
  process_trades trades role = Ok rows ->
  Sorted date_le rows
  /\ Forall (fun row => exists t,
               In t trades /\ process_trade role t = Ok (Some row))
            rows.
Proof.
  unfold process_trades. intros H.
  apply bind_Ok in H as (processed & Hloop & [= <-]).
  split; [apply sort_by_date_sorted|].
  apply process_loop_Ok in Hloop as (rows & -> & Hrows). simpl.
  rewrite Forall_forall in *. intros row Hin. apply Hrows.
  eapply Permutation_in; [symmetry; apply sort_by_date_perm|exact Hin].
Qed.

Lemma process_trade_not_str r trade :
  reaches_parse r trade = true ->
  is_str (chosen_date trade) = false ->
  process_trade (role_name r) trade = Raise AttributeError.
Proof.
  destruct trade as [| | | | | |d]; try discriminate.
  unfold reaches_parse. rewrite !andb_true_iff.
  intros [[[[Hr Hc] Hid] Hver] Htruthy] Hstr.
  destruct (object_or_absent_dict _ Hc) as (c & Hc').
  unfold process_trade. rewrite (identity_filter r d _ Hr), Hid.
  rewrite !get_dict. ret. rewrite ne_str_verified, Hver.
  simpl negb. cbv iota. rewrite Hc', !get_dict. ret.
  assert ((if negb (truthy (default JNull (lookup "accepted_at" d)))
           then Ok (default JNull (lookup "verified_at" d))
           else Ok (default JNull (lookup "accepted_at" d)))
          = Ok (chosen_date (JDict d))) as ->.
  { unfold chosen_date. rewrite !field_top.
    now destruct (truthy (default JNull (lookup "accepted_at" d))). }
  ret. rewrite Htruthy. simpl negb. cbv iota.
  rewrite format_date_not_str; [reflexivity|].
  intros s Hs. now rewrite Hs in Hstr.
Qed.

(** *** Prices *)

Lemma finite_or_overflow_Raise x e :
  finite_or_overflow x = Raise e -> e = OverflowError.
Proof.
  unfold finite_or_overflow. destruct (is_infinite x); now intros [= <-].
Qed.

Lemma int_truediv_100_Raise c e :
  int_truediv c 100 = Raise e -> e = OverflowError.
Proof.
  unfold int_truediv. destruct c; try discriminate;
    apply finite_or_overflow_Raise.
Qed.

Lemma round_Raise x n e : round x n = Raise e -> e = OverflowError.
Proof.
  unfold round. destruct x; try discriminate.
  destruct (scaled m e0 n); try discriminate.
  apply finite_or_overflow_Raise.
Qed.

Lemma try_except_OverflowError {A} (c h : result A) :
  (forall e, c = Raise e -> e = OverflowError) ->
  try_except c [ValueError; TypeError] h = c.
Proof.
  destruct c as [a|e]; [reflexivity|].
  intros H. now rewrite (H e eq_refl).
Qed.

Lemma format_price_int c r :
  format_price (JInt c) (is_seller r) = spec_price r c.
Proof.
  unfold format_price. simpl is_none. cbv iota.
  rewrite try_except_OverflowError.
  - unfold div_100. destruct r; [|reflexivity]. simpl.
    destruct (int_truediv c 100) as [q|]; ret; [|reflexivity].
    now destruct (round q 2).
  - intros e. unfold div_100.
    destruct (int_truediv c 100) as [q|e'] eqn:Hq; ret.
    + destruct (round q 2) as [p|e'] eqn:Hp; ret.
      * destruct (is_seller r); [apply round_Raise|discriminate].
      * intros [= <-]. now apply round_Raise in Hp.
    + intros [= <-]. now apply int_truediv_100_Raise in Hq.
Qed.

Lemma format_price_unparseable v sale :
  unparseable v = true -> format_price v sale = Ok zero.
Proof. now destruct v. Qed.

(** *** The fallback tiers on strings *)

Lemma contains_cons sub c s :
  contains sub (String c s) = String.prefix sub (String c s) || contains sub s.
Proof. reflexivity. Qed.

(** [split_head "T"] is the text before the first [T]. *)
Lemma split_head_T s :
  contains "T" s = true ->
  contains "T" (split_head "T" s) = false
  /\ exists rest, s = (split_head "T" s ++ String "T" rest)%string.
Proof.
  induction s as [|c s IH]; [discriminate|].
  rewrite contains_cons. cbn [split_head String.prefix].
  destruct (ascii_dec "T" c) as [<-|Hc].
  - intros _. destruct s; (split; [reflexivity|now exists s + eauto]).
  - simpl orb. intros H. destruct (IH H) as (Hno & rest & Hrest).
    split.
    + rewrite contains_cons. cbn [String.prefix].
      destruct (ascii_dec "T" c); [contradiction|exact Hno].
    + exists rest.
      change (String c s
              = String c (split_head "T" s ++ String "T" rest)%string).
      now rewrite <- Hrest.
Qed.

(** [slice_to n] is the first [n] characters, or all there are. *)
Lemma slice_to_prefix n s :
  String.length (slice_to n s) = Nat.min n (String.length s)
  /\ exists rest, s = (slice_to n s ++ rest)%string.
Proof.
  revert s. induction n as [|n IH]; intros s.
  - split; [reflexivity|now exists s].
  - destruct s as [|c s]; [split; [reflexivity|now exists EmptyString]|].
    destruct (IH s) as (Hlen & rest & Hrest). simpl. split.
    + now rewrite Hlen.
    + exists rest.
      change (String c s = String c (slice_to n s ++ rest)%string).
      now rewrite <- Hrest.
Qed.

(** ** The statements of the specification *)

(** C1 (amended).  For every list of well-formed raw trades and either
    role, [process_trades] raises nothing and returns, sorted by date, one
    row for each record whose state is "verified", whose role-matching
    identity field equals the configured identity and that has a
    non-empty [accepted_at] or [verified_at]; every other record is
    dropped by the loop without an error. *)
Theorem process_trades_keeps r trades :
  Forall (fun t => well_formed r t = true) trades ->
  exists rows,
    Forall2 (fun t row => process_trade (role_name r) t = Ok (Some row))
            (List.filter (keeps r) trades) rows
    /\ process_trades trades (role_name r) = Ok (sort_by_date rows)
    /\ Permutation rows (sort_by_date rows)
    /\ Forall (fun t => keeps r t = false ->
                        process_trade (role_name r) t = Ok None) trades.
Proof.
  intros Hwf.
  destruct (process_loop_well_formed r trades [] Hwf) as (rows & H2 & Hl).
  exists rows. split; [exact H2|]. split; [|split].
  - unfold process_trades. now rewrite Hl.
  - apply sort_by_date_perm.
  - eapply Forall_impl; [|exact Hwf].
    intros t Ht Hk. pose proof (process_trade_well_formed r t Ht) as H.
    now rewrite Hk in H.
Qed.

(** C2.  For every integer number of cents the price computed for a
    seller is [round(round(c/100, 2) * 0.98, 2)] and for a buyer
    [round(c/100, 2)], the two sides raising together when [c/100] is
    beyond the floats; a missing price and one that is no number give
    0.0; and the price of a row is the one computed with the fee for
    the role seller and without it for the role buyer. *)
Theorem format_price_by_role r :
  (forall c, format_price (JInt c) (is_seller r) = spec_price r c)
  /\ format_price JNull (is_seller r) = Ok zero
  /\ (forall v, unparseable v = true ->
                format_price v (is_seller r) = Ok zero)
  /\ (forall trade row,
        process_trade (role_name r) trade = Ok (Some row) ->
        format_price (field ["contract"; "price"] trade) (is_seller r)
        = Ok (price row)).
Proof.
  split; [|split; [|split]].
  - intros c. apply format_price_int.
  - reflexivity.
  - intros v. apply format_price_unparseable.
  - intros trade row H.
    apply process_trade_Ok in H as (s & _ & _ & _ & H & _).
    now rewrite is_seller_eqb in H.
Qed.

(** C7.  In every result of [process_trades] the dates of two adjacent
    rows are in ascending lexicographic order. *)
Theorem process_trades_sorted trades role rows i a b :
  process_trades trades role = Ok rows ->
  rows !! i = Some a ->
  rows !! S i = Some b ->
  String.leb (date a) (date b) = true.
Proof.
  intros H. apply process_trades_Ok in H as [Hs _].
  apply (Sorted_adjacent date_le rows i a b Hs).
Qed.

(** C8.  Normalising and exporting the same fetched trades again, for
    the same role and identity, changes nothing: the second run leaves
    the world of the first as it is, and from whatever world a run
    starts, the bytes it writes to the file are the same. *)
Theorem normalize_and_export_twice trades role filename w :
  let run := normalize_and_export trades role filename in
  run (fst (run w)) = run w
  /\ (forall rows,
        process_trades trades role = Ok rows ->
        forall w', files (fst (run w')) !! filename
                   = Some (utf8 (csv_text rows))).
Proof.
  unfold normalize_and_export. split.
  - destruct (process_trades trades role) as [rows|e]; simpl;
      [|reflexivity].
    unfold export_to_csv. simpl. now rewrite insert_insert_eq.
  - intros rows -> w'. simpl. apply lookup_insert_eq.
Qed.

(** C9 (amended).  [process_trades] raises nothing on a list of
    well-formed records, whose timestamps are strings when present:
    the handler around the parse sends every string the parser rejects
    to a fallback tier.  That handler catches [ValueError] only: a
    value that is no string raises [AttributeError] from the parse, and
    a record that reaches the parse with such a value as its date makes
    [process_trades] raise, wherever it stands in the list. *)
Theorem process_trades_total_on_strings r :
  (forall trades,
     Forall (fun t => well_formed r t = true) trades ->
     exists rows, process_trades trades (role_name r) = Ok rows)
  /\ (forall s, format_date (JStr s) = Ok (three_tier s))
  /\ (forall v, is_str v = false -> format_date v = Raise AttributeError)
  /\ (forall before trade after,
        reaches_parse r trade = true ->
        is_str (chosen_date trade) = false ->
        process_trade (role_name r) trade = Raise AttributeError
        /\ exists e, process_trades (before ++ trade :: after)
                       (role_name r) = Raise e).
Proof.
  split; [|split; [|split]].
  - intros trades Hwf.
    destruct (process_loop_well_formed r trades [] Hwf) as (rows & _ & H).
    unfold process_trades. rewrite H. ret. eauto.
  - apply format_date_str.
  - intros v Hv. apply format_date_not_str. intros s ->. discriminate.
  - intros before trade after Hreach Hstr.
    pose proof (process_trade_not_str r trade Hreach Hstr) as Hraise.
    split; [exact Hraise|].
    destruct (process_loop_Raise _ before _ after [] _ Hraise) as (e & He).
    exists e. unfold process_trades. now rewrite He.
Qed.

(** *** Fetching *)

Lemma iter_len v l : iter v = Ok l -> len v = Ok (List.length l).
Proof.
  destruct v; try discriminate; intros [= <-]; simpl; f_equal.
  - rewrite length_map. induction s; simpl; congruence.
  - now rewrite length_map.
Qed.

Lemma iter_falsy v : truthy v = false -> iter v = Ok [] \/ exists e, iter v = Raise e.
Proof.
  destruct v as [| | | |[|]|[|]|[|]]; simpl; try discriminate; eauto.
Qed.

(** What the [try] block does with a page: it appends the records of
    the page, and the loop goes on exactly when the page gives no
    reason to stop. *)
Lemma read_page_records o acc :
  fst (read_page o acc) = acc ++ records o
  /\ (snd (read_page o acc) = Ok true <-> stops o = false).
Proof.
  unfold stops, records, read_page.
  destruct o as [e|status body]; simpl success.
  - simpl. rewrite app_nil_r. split; [reflexivity|]. split; discriminate.
  - destruct (status =? 200)%Z; simpl negb; cbv iota.
    2:{ destruct body as [[]|]; simpl; rewrite app_nil_r;
          (split; [reflexivity|split; discriminate]). }
    rewrite orb_false_r.
    destruct body as [data|]; simpl;
      [|rewrite app_nil_r; split; [reflexivity|split; discriminate]].
    destruct data as [| | | | | |d]; simpl;
      try (rewrite app_nil_r; split; [reflexivity|split; discriminate]).
    destruct (lookup "trades" d) as [v|]; simpl;
      [|rewrite app_nil_r; split; [reflexivity|split; discriminate]].
    destruct (truthy v) eqn:Hv; simpl.
    + unfold extend. destruct (iter v) as [l|e] eqn:Hl; ret; simpl.
      * rewrite (iter_len _ _ Hl). ret. split; [reflexivity|].
        destruct (List.length l) as [|n]; simpl; [split; discriminate|].
        destruct (S n <? 500)%nat; simpl; split; congruence.
      * rewrite app_nil_r. split; [reflexivity|split; discriminate].
    + destruct (iter_falsy v Hv) as [->|(e & ->)]; simpl;
        rewrite app_nil_r; split; try reflexivity; split; discriminate.
Qed.

Lemma requests_app tr tr' : requests (tr ++ tr') = requests tr ++ requests tr'.
Proof.
  induction tr as [|[] tr IH]; simpl; [reflexivity|exact IH|now rewrite IH].
Qed.

Lemma requests_iteration (waits : bool) c w req t :
  requests ((if waits then [Slept c w] else []) ++ [Requested req t])
  = [req].
Proof. now destruct waits. Qed.

(** The loop started at [page] stops after the first page from there
    that gives a reason to stop, having requested every page up to it
    once and in order and appended their records. *)
Lemma fetch_loop_stops env api_key role n :
  forall fuel page acc last now,
    (forall k, (k < n)%nat ->
               stops (page_outcome env role (page + k)) = false) ->
    stops (page_outcome env role (page + n)) = true ->
    (n < fuel)%nat ->
    exists f,
      fetch_loop env api_key role fuel page acc last now = Returned f
      /\ all_trades f
         = acc ++ List.concat
                    (List.map (fun k => records (page_outcome env role k))
                              (List.seq page (S n)))
      /\ requests (fetch_trace f)
         = List.map (fun k => mk_request (trades_url role k) api_key)
                    (List.seq page (S n)).
Proof.
  induction n as [|n IH]; intros fuel page acc last now Hgo Hstop Hfuel;
    (destruct fuel as [|fuel]; [lia|]); cbn [fetch_loop];
    fold (page_outcome env role page);
    destruct (read_page_records (page_outcome env role page) acc)
      as [Hacc Hnext];
    destruct (read_page (page_outcome env role page) acc)
      as [acc' next]; simpl in Hacc, Hnext; subst acc'.
  - rewrite Nat.add_0_r in Hstop.
    assert (next <> Ok true) as Hne
      by (intros E; apply Hnext in E; congruence).
    eexists. split.
    + destruct next as [[|]|]; [congruence|reflexivity|reflexivity].
    + simpl. rewrite app_nil_r, requests_iteration. auto.
  - assert (next = Ok true) as ->.
    { apply Hnext. specialize (Hgo 0%nat). rewrite Nat.add_0_r in Hgo.
      apply Hgo. lia. }
    edestruct (IH fuel (S page)) as (f & -> & Hall & Hreq).
    + intros k Hk. replace (S page + k)%nat with (page + S k)%nat by lia.
      apply Hgo. lia.
    + replace (S page + n)%nat with (page + S n)%nat by lia. exact Hstop.
    + lia.
    + eexists. split; [reflexivity|]. simpl. split.
      * rewrite Hall. now rewrite <- app_assoc.
      * rewrite requests_app, requests_iteration, Hreq. reflexivity.
Qed.

(** As long as no page gives a reason to stop the loop goes on, asking
    for one page after the other. *)
Lemma fetch_loop_goes_on env api_key role fuel :
  forall page acc last now,
    (forall k, (k < fuel)%nat ->
               stops (page_outcome env role (page + k)) = false) ->
    exists tr,
      fetch_loop env api_key role fuel page acc last now = Running tr
      /\ requests tr
         = List.map (fun k => mk_request (trades_url role k) api_key)
                    (List.seq page fuel).
Proof.
  induction fuel as [|fuel IH]; intros page acc last now Hgo;
    [now exists []|].
  cbn [fetch_loop]. fold (page_outcome env role page).
  destruct (read_page_records (page_outcome env role page) acc)
    as [_ Hnext].
  destruct (read_page (page_outcome env role page) acc) as [acc' next].
  simpl in Hnext.
  assert (next = Ok true) as ->.
  { apply Hnext. specialize (Hgo 0%nat). rewrite Nat.add_0_r in Hgo.
    apply Hgo. lia. }
  edestruct (IH (S page)) as (tr & -> & Hreq).
  - intros k Hk. replace (S page + k)%nat with (page + S k)%nat by lia.
    apply Hgo. lia.
  - eexists. split; [reflexivity|].
    rewrite requests_app, requests_iteration, Hreq. reflexivity.
Qed.

(** One turn of the loop keeps the pace. *)
Lemma paced_iteration last now (d : duration) req tr :
  let waits := negb (Qle_bool RATE_LIMIT (now - last)) in
  let w := (RATE_LIMIT - (now - last))%Q in
  let t := ((if waits then now + w else now) + seconds d)%Q in
  paced t tr ->
  paced last ((if waits then [Slept now w] else []) ++ Requested req t :: tr).
Proof.
  intros waits w t Htr. pose proof (seconds_nonneg d) as Hd.
  subst waits w t.
  destruct (Qle_bool RATE_LIMIT (now - last)) eqn:E; simpl.
  - apply Qle_bool_iff in E. split; [lra|exact Htr].
  - assert (now - last < RATE_LIMIT)%Q as Hlt.
    { apply Qnot_le_lt. intros H. apply Qle_bool_iff in H. congruence. }
    repeat split; try assumption; lra.
Qed.

Lemma fetch_loop_paced env api_key role fuel :
  forall page acc last now,
    paced last (events (fetch_loop env api_key role fuel page acc last now)).
Proof.
  induction fuel as [|fuel IH]; intros page acc last now; [exact I|].
  cbn [fetch_loop].
  destruct (read_page _ acc) as [acc' [[|]|e]].
  - match goal with
    | |- context [after ?evs (fetch_loop ?e ?k ?r ?f ?p ?a ?l ?n)] =>
        specialize (IH p a l n);
        destruct (fetch_loop e k r f p a l n) as [f'|tr]
    end; simpl in *; rewrite <- app_assoc; now apply paced_iteration.
  - simpl. now apply paced_iteration.
  - simpl. now apply paced_iteration.
Qed.

Lemma paced_stamps tr :
  forall last i a b,
    paced last tr ->
    (last :: stamps tr) !! i = Some a ->
    (last :: stamps tr) !! S i = Some b ->
    (a + RATE_LIMIT <= b)%Q.
Proof.
  induction tr as [|[c w|req t] tr IH]; intros last i a b Hp Ha Hb.
  - destruct i; discriminate.
  - simpl in Hp. destruct Hp as (_ & _ & _ & Hp). eauto.
  - simpl in Hp. destruct Hp as [Ht Hp]. destruct i as [|i].
    + simpl in Ha, Hb. injection Ha as <-. injection Hb as <-. exact Ht.
    + simpl in Ha, Hb. apply (IH t i a b Hp); assumption.
Qed.

(** C4.  The fetch asks for the pages 0, 1, 2, ... with a limit of 500
    and stops exactly after the first page that returns no record or
    fewer than 500 or is not a success: it then has requested each page
    up to that one once and returns their records in order, and while
    no such page comes it goes on asking for the next page.  With 500
    records on page 0 and 200 on page 1 it sends two requests and returns
    the 700 records, those of page 0 first. *)
Theorem fetch_pagination env api_key role now :
  (forall n fuel,
     last_page env role n -> (n < fuel)%nat ->
     exists f,
       fetch_csfloat_trades env fuel now api_key role = Returned f
       /\ all_trades f = pages_upto env role (S n)
       /\ requests (fetch_trace f) = requests_upto api_key role (S n))
  /\ (forall fuel,
        (forall k, (k < fuel)%nat ->
                   stops (page_outcome env role k) = false) ->
        exists tr,
          fetch_csfloat_trades env fuel now api_key role = Running tr
          /\ requests tr = requests_upto api_key role fuel)
  /\ (forall fuel,
        List.length (records (page_outcome env role 0)) = 500%nat ->
        List.length (records (page_outcome env role 1)) = 200%nat ->
        (2 <= fuel)%nat ->
        exists f,
          fetch_csfloat_trades env fuel now api_key role = Returned f
          /\ all_trades f = records (page_outcome env role 0)
                            ++ records (page_outcome env role 1)
          /\ List.length (all_trades f) = 700%nat
          /\ requests (fetch_trace f)
             = [ mk_request (trades_url role 0) api_key;
                 mk_request (trades_url role 1) api_key ]).
Proof.
  assert (forall n fuel,
     last_page env role n -> (n < fuel)%nat ->
     exists f,
       fetch_csfloat_trades env fuel now api_key role = Returned f
       /\ all_trades f = pages_upto env role (S n)
       /\ requests (fetch_trace f) = requests_upto api_key role (S n))
    as Hstops.
  { intros n fuel [Hstop Hgo] Hfuel.
    apply (fetch_loop_stops env api_key role n fuel 0 [] 0%Q now);
      assumption. }
  split; [exact Hstops|]. split.
  - intros fuel Hgo. now apply fetch_loop_goes_on.
  - intros fuel H0 H1 Hfuel.
    destruct (Hstops 1%nat fuel) as (f & Hf & Hall & Hreq); [|lia|].
    + split.
      * unfold stops. now rewrite H1.
      * intros k Hk. assert (k = 0%nat) as -> by lia.
        unfold stops. rewrite H0. simpl.
        destruct (page_outcome env role 0) as [|status [[]|]];
          try discriminate.
        simpl in *. now destruct (status =? 200)%Z.
    + exists f. split; [exact Hf|].
      unfold pages_upto in Hall. simpl in Hall.
      rewrite app_nil_r in Hall.
      repeat split; [exact Hall| |exact Hreq].
      rewrite Hall, length_app. lia.
Qed.

(** C5.  When the request of a page fails, by a response that is not a
    success or by an exception of the transport, after full pages only,
    the fetch returns at once and normally: its result holds the
    records of the pages before the failed one and nothing of that
    one, and the failed request is the last it has sent. *)
Theorem fetch_partial_on_failure env api_key role now n fuel :
  (forall k, (k < n)%nat -> stops (page_outcome env role k) = false) ->
  failed (page_outcome env role n) = true ->
  (n < fuel)%nat ->
  exists f,
    fetch_csfloat_trades env fuel now api_key role = Returned f
    /\ all_trades f = pages_upto env role n
    /\ records (page_outcome env role n) = []
    /\ requests (fetch_trace f) = requests_upto api_key role (S n).
Proof.
  intros Hgo Hfail Hfuel.
  assert (records (page_outcome env role n) = [] /\
          stops (page_outcome env role n) = true) as [Hrec Hstop].
  { unfold stops, records.
    destruct (page_outcome env role n) as [e|status body]; [easy|].
    simpl in *. destruct (status =? 200)%Z; [discriminate|].
    now destruct body as [[]|]. }
  destruct (fetch_loop_stops env api_key role n fuel 0 [] 0%Q now)
    as (f & Hf & Hall & Hreq); try assumption.
  exists f. split; [exact Hf|]. split; [|split; [exact Hrec|exact Hreq]].
  rewrite Hall. unfold pages_upto.
  rewrite seq_S, map_app, concat_app. simpl.
  now rewrite Hrec, !app_nil_r.
Qed.

(** C6.  At every point of a fetch, whether it has returned or is still
    running, every request it has sent, the first included, is stamped at
    least [RATE_LIMIT] seconds after the one before it (after time 0 for
    the first), the fetch having suspended itself for what was missing:
    the stamps of two consecutive requests are never less than
    [RATE_LIMIT] apart. *)
Theorem fetch_rate_limited env fuel now api_key role :
  let tr := events (fetch_csfloat_trades env fuel now api_key role) in
  paced 0 tr
  /\ forall i a b,
       (0%Q :: stamps tr) !! i = Some a ->
       (0%Q :: stamps tr) !! S i = Some b ->
       (a + RATE_LIMIT <= b)%Q.
Proof.
  pose proof (fetch_loop_paced env api_key role fuel 0 [] 0%Q now) as H.
  split; [exact H|]. intros i a b. now apply paced_stamps.
Qed.

(** *** The run for one role *)

Lemma export_role_well_formed env fuel api_key r filename w n :
  last_page env (role_name r) n ->
  (n < fuel)%nat ->
  Forall (fun t => well_formed r t = true)
         (pages_upto env (role_name r) (S n)) ->
  exists f rows,
    export_role env fuel api_key (role_name r) filename w
    = Some (export_to_csv (sort_by_date rows) filename
              (mk_world (files w) (fetch_end f)
                        (trace w ++ fetch_trace f)),
            None)
    /\ Forall2 (fun t row =>
                  process_trade (role_name r) t = Ok (Some row))
               (List.filter (keeps r)
                            (pages_upto env (role_name r) (S n)))
               rows
    /\ requests (fetch_trace f)
       = requests_upto api_key (role_name r) (S n).
Proof.
  intros [Hstop Hgo] Hfuel Hwf.
  destruct (fetch_loop_stops env api_key (role_name r) n fuel 0 []
              0%Q (clock w)) as (f & Hf & Hall & Hreq); try assumption.
  change (all_trades f = pages_upto env (role_name r) (S n)) in Hall.
  destruct (process_loop_well_formed r _ [] Hwf) as (rows & Hrows & Hloop).
  exists f, rows. split; [|split; [exact Hrows|exact Hreq]].
  unfold export_role, fetch_csfloat_trades. rewrite Hf.
  unfold normalize_and_export, process_trades. rewrite Hall, Hloop.
  reflexivity.
Qed.


(** ** Further properties of the script *)

(** *** Conversions *)

(** X1.  [safe_float] is [float()] with its [ValueError] and [TypeError]
    replaced by the default: a value that converts gives its float, one
    that [float()] rejects with one of the two (with [None] among them)
    gives the default, and the only exception that escapes is the
    [OverflowError] of an integer beyond the floats. *)
Theorem safe_float_escapes_only_overflow value default :
  (forall x, to_float value = Ok x ->
             safe_float value default = Ok (Some x))
  /\ (forall e, to_float value = Raise e -> e <> OverflowError ->
                safe_float value default = Ok default)
  /\ (forall e, safe_float value default = Raise e ->
                e = OverflowError
                /\ exists z, value = JInt z /\ is_infinite (of_Z z) = true).
Proof.
  unfold safe_float.
  destruct value as [|b|z|x|s|l|d]; simpl;
    try (repeat split; intros; (discriminate || congruence)).
  - unfold float_of_int, finite_or_overflow.
    destruct (is_infinite (of_Z z)) eqn:Hz; simpl;
      repeat split; intros; try (discriminate || congruence); eauto.
  - destruct (float_of_str s); simpl;
      repeat split; intros; (discriminate || congruence).
Qed.

(** X2.  The handler of [format_price] covers [ValueError] and
    [TypeError] only: the one exception the function can raise is
    [OverflowError], and only on a number; [None], a string, a list and
    an object give 0.0, and so does no boolean raise. *)
Theorem format_price_escapes_only_overflow v sale e :
  format_price v sale = Raise e ->
  e = OverflowError
  /\ ((exists z, v = JInt z) \/ (exists x, v = JFloat x)).
Proof.
  destruct v as [|b|z|x|s|l|d]; try discriminate.
  - destruct b, sale; vm_compute; discriminate.
  - intros H. split; [|eauto]. revert H.
    unfold format_price. simpl is_none. cbv iota. unfold div_100.
    destruct (int_truediv z 100) as [q|e'] eqn:Hq; ret.
    + destruct (round q 2) as [p|e'] eqn:Hp; ret.
      * destruct sale; [|discriminate].
        destruct (round (fmul p fee_factor) 2) as [p'|e'] eqn:Hp';
          [discriminate|].
        apply round_Raise in Hp'. subst e'. now intros [= <-].
      * apply round_Raise in Hp. subst e'. now intros [= <-].
    + apply int_truediv_100_Raise in Hq. subst e'. now intros [= <-].
  - intros H. split; [|eauto]. revert H.
    unfold format_price. simpl is_none. cbv iota. unfold div_100.
    change (float_truediv x hundred) with (Ok (fdiv x hundred)). ret.
    destruct (round (fdiv x hundred) 2) as [p|e'] eqn:Hp; ret.
    + destruct sale; [|discriminate].
      destruct (round (fmul p fee_factor) 2) as [p'|e'] eqn:Hp';
        [discriminate|].
      apply round_Raise in Hp'. subst e'. now intros [= <-].
    + apply round_Raise in Hp. subst e'. now intros [= <-].
Qed.

(** *** The loop body on records of any shape *)

Lemma process_trade_non_object role trade :
  (forall d, trade <> JDict d) ->
  process_trade role trade = Raise AttributeError.
Proof.
  intros H. unfold process_trade, other_party.
  destruct trade as [| | | | | |d]; [..|now destruct (H d)];
    destruct (String.eqb role "buyer"), (String.eqb role "seller");
    reflexivity.
Qed.

Lemma other_party_not_object r d :
  object_or_absent (lookup (role_name r) d) = false ->
  other_party (role_name r) (role_name r) (JDict d) = Raise AttributeError.
Proof.
  unfold other_party. rewrite String.eqb_refl, get_dict.
  destruct (lookup (role_name r) d) as [[]|]; try discriminate; reflexivity.
Qed.

Lemma process_trade_party_not_object r d :
  object_or_absent (lookup (role_name r) d) = false ->
  process_trade (role_name r) (JDict d) = Raise AttributeError.
Proof.
  intros H. apply other_party_not_object in H.
  unfold process_trade. destruct r; simpl role_name in *.
  - now rewrite H.
  - change (other_party "seller" "buyer" (JDict d)) with (Ok (A:=bool) false).
    ret. now rewrite H.
Qed.

Lemma present_truthy v : present v = true -> truthy v = true.
Proof. now destruct v as [| | | |[|]| |]. Qed.

Lemma chosen_date_falsy d :
  truthy (chosen_date (JDict d)) = false -> has_date (JDict d) = false.
Proof.
  unfold chosen_date, has_date. rewrite !field_top.
  destruct (truthy (default JNull (lookup "accepted_at" d))) eqn:Ha;
    [congruence|].
  intros Hv. apply orb_false_iff.
  split; apply not_true_is_false; intros H; apply present_truthy in H;
    congruence.
Qed.

Lemma chosen_date_str d s :
  chosen_date (JDict d) = JStr s -> s <> EmptyString ->
  has_date (JDict d) = true.
Proof.
  unfold chosen_date, has_date. rewrite !field_top.
  destruct (truthy (default JNull (lookup "accepted_at" d)));
    intros -> Hs; destruct s; try contradiction; simpl;
    [reflexivity|apply orb_true_r].
Qed.

Lemma chosen_date_get d :
  (if negb (truthy (default JNull (lookup "accepted_at" d)))
   then Ok (default JNull (lookup "verified_at" d))
   else Ok (default JNull (lookup "accepted_at" d)))
  = Ok (chosen_date (JDict d)).
Proof.
  unfold chosen_date. rewrite !field_top.
  now destruct (truthy (default JNull (lookup "accepted_at" d))).
Qed.

(** Whenever the body of the loop returns, on a record of whatever
    shape, it returns a row exactly when the record meets the three
    conditions. *)
Lemma process_trade_Ok_keeps r trade o :
  process_trade (role_name r) trade = Ok o ->
  keeps r trade = match o with Some _ => true | None => false end.
Proof.
  intros H. destruct trade as [| | | | | |d];
    try (rewrite process_trade_non_object in H by (intros; discriminate);
         discriminate H).
  destruct (object_or_absent (lookup (role_name r) d)) eqn:Hr;
    [|rewrite (process_trade_party_not_object r d Hr) in H; discriminate H].
  unfold process_trade in H. rewrite (identity_filter r d _ Hr) in H.
  unfold keeps.
  destruct (identity_matches r (JDict d));
    [|injection H as <-; now rewrite andb_false_r].
  rewrite andb_true_r.
  rewrite !get_dict in H. ret. rewrite ne_str_verified in H.
  destruct (state_verified (JDict d)); simpl negb in H; cbv iota in H;
    [|now injection H as <-].
  apply bind_Ok in H as (item & Hitem & H).
  apply get_Ok in Hitem as (c & Hc & ->).
  rewrite chosen_date_get in H. ret.
  destruct (truthy (chosen_date (JDict d))) eqn:Htruthy;
    simpl negb in H; cbv iota in H.
  - apply bind_Ok in H as (fd & Hfd & H).
    apply format_date_Ok in Hfd as (s & Hs & ->).
    rewrite (chosen_date_str d s Hs)
      by (intros ->; rewrite Hs in Htruthy; discriminate).
    rewrite Hc in H. rewrite !get_dict in H. ret.
    apply bind_Ok in H as (ty & _ & H).
    apply bind_Ok in H as (name & _ & H).
    apply bind_Ok in H as (p & _ & H).
    apply bind_Ok in H as (fv & _ & H).
    apply bind_Ok in H as (fl & _ & H).
    now injection H as <-.
  - injection H as <-. now rewrite (chosen_date_falsy d Htruthy).
Qed.

Lemma process_loop_Ok_keeps r trades :
  forall acc out,
    process_loop (role_name r) trades acc = Ok out ->
    exists rows,
      Forall2 (fun t row => process_trade (role_name r) t = Ok (Some row))
              (List.filter (keeps r) trades) rows
      /\ out = acc ++ rows.
Proof.
  induction trades as [|t trades IH]; intros acc out; simpl.
  - intros [= <-]. exists []. split; [constructor|now rewrite app_nil_r].
  - intros H. apply bind_Ok in H as (o & Ho & H).
    rewrite (process_trade_Ok_keeps r t o Ho).
    apply IH in H as (rows & Hrows & ->). destruct o as [row|].
    + exists (row :: rows). split; [now constructor|].
      now rewrite <- app_assoc.
    + now exists rows.
Qed.

(** What the fields of a row were read from. *)
Lemma process_trade_row role trade r :
  process_trade role trade = Ok (Some r) ->
  exists d c i,
    trade = JDict d
    /\ default (JDict []) (lookup "contract" d) = JDict c
    /\ default (JDict []) (lookup "item" c) = JDict i
    /\ item_name r = default (JStr "Unknown") (lookup "market_hash_name" i)
    /\ type r = default (JStr "Unknown") (lookup "type_name" i)
    /\ id r = default (JStr EmptyString) (lookup "id" d)
    /\ safe_float (default JNull (lookup "float_value" i)) None
       = Ok (float r).
Proof.
  unfold process_trade. intros H.
  apply bind_Ok in H as (skip1 & _ & H). destruct skip1; [discriminate|].
  apply bind_Ok in H as (skip2 & _ & H). destruct skip2; [discriminate|].
  apply bind_Ok in H as (state & Hstate & H).
  apply get_Ok in Hstate as (d & -> & ->).
  destruct (ne_str _ _) in H; [discriminate|].
  rewrite !get_dict in H. ret.
  apply bind_Ok in H as (item & Hitem & H).
  apply get_Ok in Hitem as (c & Hc & ->).
  rewrite chosen_date_get in H. ret.
  destruct (negb (truthy (chosen_date (JDict d)))); [discriminate|].
  apply bind_Ok in H as (fd & _ & H).
  rewrite Hc in H. rewrite !get_dict in H. ret.
  apply bind_Ok in H as (ty & Hty & H).
  apply get_Ok in Hty as (i & Hi & ->).
  rewrite Hi in H. rewrite !get_dict in H. ret.
  apply bind_Ok in H as (p & _ & H).
  apply bind_Ok in H as (fl & Hfl & H).
  injection H as <-. simpl.
  exists d, c, i. repeat split; assumption.
Qed.

Lemma at_path_nested3 d k k' k'' c i :
  default (JDict []) (lookup k d) = JDict c ->
  default (JDict []) (lookup k' c) = JDict i ->
  at_path [k; k'; k''] (JDict d) = lookup k'' i.
Proof.
  simpl. destruct (lookup k d) as [v|]; simpl.
  - intros ->. destruct (lookup k' c) as [v'|]; simpl.
    + intros ->. now destruct (lookup k'' i).
    + now intros [= <-].
  - intros [= <-]. simpl. now intros [= <-].
Qed.

(** X3.  [process_trades] expects a list of objects and checks none: on
    an element that is no object ([None], a number, a string, a list) the
    body of the loop raises [AttributeError] for every role, and so
    does the whole call raise, wherever the element stands. *)
Theorem process_trades_non_object role before trade after :
  (forall d, trade <> JDict d) ->
  process_trade role trade = Raise AttributeError
  /\ exists e, process_trades (before ++ trade :: after) role = Raise e.
Proof.
  intros H. pose proof (process_trade_non_object role trade H) as Hraise.
  split; [exact Hraise|].
  destruct (process_loop_Raise _ before _ after [] _ Hraise) as (e & He).
  exists e. unfold process_trades. now rewrite He.
Qed.

(** X4.  The body of the loop checks the identity, then the state, then
    reads the contract, and only then looks for a date.  A record whose
    role-matching party is an object or missing is dropped when the
    identity differs, and when the state is not "verified", whatever its
    other fields hold; a verified record of the configured identity
    whose [contract] is not an object raises [AttributeError], also when
    it has no date and would have been dropped. *)
Theorem process_trade_check_order r d :
  object_or_absent (lookup (role_name r) d) = true ->
  (identity_matches r (JDict d) = false ->
   process_trade (role_name r) (JDict d) = Ok None)
  /\ (state_verified (JDict d) = false ->
      process_trade (role_name r) (JDict d) = Ok None)
  /\ (identity_matches r (JDict d) = true ->
      state_verified (JDict d) = true ->
      object_or_absent (lookup "contract" d) = false ->
      process_trade (role_name r) (JDict d) = Raise AttributeError).
Proof.
  intros Hr. unfold process_trade. rewrite (identity_filter r d _ Hr).
  rewrite !get_dict. ret. rewrite ne_str_verified.
  split; [now intros ->|]. split.
  - intros ->. now destruct (identity_matches r (JDict d)).
  - intros -> -> Hc. simpl negb. cbv iota.
    destruct (lookup "contract" d) as [[]|]; try discriminate; reflexivity.
Qed.

(** X5.  When [process_trades] returns, on records of whatever shape, its
    result is made of one row for each record that meets the three
    conditions, in the order of the records and then sorted by date: no
    row comes from a record that is not verified, that belongs to another
    identity or that has no date, and none of the records that meet the
    conditions is left out. *)
Theorem process_trades_returns_kept r trades rows :
  process_trades trades (role_name r) = Ok rows ->
  exists processed,
    Forall2 (fun t row => process_trade (role_name r) t = Ok (Some row))
            (List.filter (keeps r) trades) processed
    /\ rows = sort_by_date processed
    /\ List.length rows = List.length (List.filter (keeps r) trades).
Proof.
  unfold process_trades. intros H.
  apply bind_Ok in H as (processed & Hloop & [= <-]).
  apply process_loop_Ok_keeps in Hloop as (rows & Hrows & ->).
  exists rows. split; [exact Hrows|]. split; [reflexivity|].
  rewrite <- (Permutation_length (sort_by_date_perm _)). simpl.
  symmetry. eapply Forall2_length. exact Hrows.
Qed.

(** X6.  The fields of a row: the name and the type of the item default
    to "Unknown" and the transaction id to the empty string when the key
    is missing, a missing [contract] or [item] reading as an empty object;
    a key that is there keeps its value, [null] included.  The float is
    [safe_float] of the [float_value], [None] when there is none. *)
Theorem process_trade_defaults role trade row :
  process_trade role trade = Ok (Some row) ->
  item_name row
  = default (JStr "Unknown")
      (at_path ["contract"; "item"; "market_hash_name"] trade)
  /\ type row
     = default (JStr "Unknown")
         (at_path ["contract"; "item"; "type_name"] trade)
  /\ id row = default (JStr EmptyString) (at_path ["id"] trade)
  /\ safe_float (field ["contract"; "item"; "float_value"] trade) None
     = Ok (float row).
Proof.
  intros H.
  apply process_trade_row in H
    as (d & c & i & -> & Hc & Hi & Hname & Hty & Hid & Hfl).
  rewrite !(at_path_nested3 _ _ _ _ _ _ Hc Hi).
  rewrite (field_nested3 _ _ _ _ _ _ Hc Hi).
  repeat split; try assumption.
  rewrite Hid. simpl. now destruct (lookup "id" d).
Qed.

(** *** The order of the rows *)

Lemma leb_date_refl s : String.leb s s = true.
Proof. now destruct (String.leb_total s s). Qed.

Lemma insert_by_date_filter d r l :
  List.filter (fun x => String.eqb (date x) d) (insert_by_date r l)
  = List.filter (fun x => String.eqb (date x) d) (r :: l).
Proof.
  induction l as [|r' l IH]; [reflexivity|].
  cbn [insert_by_date].
  destruct (String.leb (date r) (date r')) eqn:Hle; [reflexivity|].
  cbn [List.filter] in *. rewrite IH.
  destruct (String.eqb (date r) d) eqn:Hr; [|reflexivity].
  destruct (String.eqb (date r') d) eqn:Hr'; [|reflexivity].
  apply String.eqb_eq in Hr, Hr'. subst d.
  rewrite <- Hr', leb_date_refl in Hle. discriminate.
Qed.

Lemma sort_by_date_filter d l :
  List.filter (fun x => String.eqb (date x) d) (sort_by_date l)
  = List.filter (fun x => String.eqb (date x) d) l.
Proof.
  induction l as [|r l IH]; [reflexivity|].
  cbn [sort_by_date fold_right]. fold (sort_by_date l).
  rewrite insert_by_date_filter. cbn [List.filter]. now rewrite IH.
Qed.

(** X7.  The sort only reorders: the result of [process_trades] holds
    the rows the loop has appended, each as often as it was appended,
    and the rows of one date stand in the order in which the loop
    appended them, the order of the records. *)
Theorem process_trades_stable trades role rows :
  process_trades trades role = Ok rows ->
  exists processed,
    process_loop role trades [] = Ok processed
    /\ Permutation processed rows
    /\ forall d,
         List.filter (fun x => String.eqb (date x) d) rows
         = List.filter (fun x => String.eqb (date x) d) processed.
Proof.
  unfold process_trades. intros H.
  apply bind_Ok in H as (processed & Hloop & [= <-]).
  exists processed. split; [exact Hloop|].
  split; [apply sort_by_date_perm|]. intros d. apply sort_by_date_filter.
Qed.

(** *** The fallback tiers validate nothing *)

Lemma slice_to_all n s : (String.length s <= n)%nat -> slice_to n s = s.
Proof.
  revert n. induction s as [|c s IH]; intros [|n] H; simpl in *;
    try reflexivity; [lia|].
  rewrite IH; [reflexivity|lia].
Qed.

(** X8.  A date string the parser rejects is not checked any further: one
    that begins with [T] gives a row with an empty date, and one of at
    most ten characters without a [T] is taken as the date as it is. *)
Theorem format_date_fallback_unchecked s :
  fromisoformat (replace "Z" "+00:00" s) = None ->
  (String.prefix "T" s = true -> format_date (JStr s) = Ok EmptyString)
  /\ (contains "T" s = false -> (String.length s <= 10)%nat ->
      format_date (JStr s) = Ok s).
Proof.
  intros Hparse. rewrite format_date_str. unfold three_tier.
  rewrite Hparse. split.
  - intros HT. destruct s as [|c s]; [discriminate|].
    rewrite contains_cons, HT. simpl orb. cbv iota.
    cbn [split_head]. now rewrite HT.
  - intros -> Hlen. now rewrite slice_to_all.
Qed.

(** *** Fetching, whatever the server answers *)

Lemma after_Returned evs r f :
  after evs r = Returned f ->
  exists f',
    r = Returned f'
    /\ all_trades f = all_trades f'
    /\ fetch_trace f = evs ++ fetch_trace f'
    /\ fetch_end f = fetch_end f'.
Proof.
  destruct r as [f'|tr]; simpl; [|discriminate].
  intros [= <-]. now exists f'.
Qed.

(** A loop that returns has met a page that gives a reason to stop,
    the first from where it started. *)
Lemma fetch_loop_Returned env api_key role fuel :
  forall page acc last now f,
    fetch_loop env api_key role fuel page acc last now = Returned f ->
    exists n,
      (n < fuel)%nat
      /\ (forall k, (k < n)%nat ->
                    stops (page_outcome env role (page + k)) = false)
      /\ stops (page_outcome env role (page + n)) = true.
Proof.
  induction fuel as [|fuel IH]; intros page acc last now f; [discriminate|].
  cbn [fetch_loop]. fold (page_outcome env role page).
  destruct (read_page_records (page_outcome env role page) acc)
    as [_ Hnext].
  destruct (read_page (page_outcome env role page) acc) as [acc' next].
  simpl in Hnext.
  destruct (stops (page_outcome env role page)) eqn:Hstop.
  - intros _. exists 0%nat. rewrite Nat.add_0_r.
    split; [lia|]. split; [intros; lia|exact Hstop].
  - assert (next = Ok true) as -> by now apply Hnext.
    intros H. apply after_Returned in H as (f' & H & _).
    apply IH in H as (n & Hn & Hgo & Hst).
    exists (S n). split; [lia|]. split.
    + intros [|k] Hk; [now rewrite Nat.add_0_r|].
      replace (page + S k)%nat with (S page + k)%nat by lia.
      apply Hgo. lia.
    + now replace (page + S n)%nat with (S page + n)%nat by lia.
Qed.

(** X9.  A fetch returns only at the first page that gives a reason to
    stop, whatever the server answers on the way: its result is then the
    records of the pages up to that one, in order, and it has requested
    exactly these pages, once each, none skipped and none asked again. *)
Theorem fetch_returns_at_last_page env fuel now api_key role f :
  fetch_csfloat_trades env fuel now api_key role = Returned f ->
  exists n,
    (n < fuel)%nat
    /\ last_page env role n
    /\ all_trades f = pages_upto env role (S n)
    /\ requests (fetch_trace f) = requests_upto api_key role (S n).
Proof.
  unfold fetch_csfloat_trades. intros H.
  destruct (fetch_loop_Returned _ _ _ _ _ _ _ _ _ H) as (n & Hn & Hgo & Hst).
  destruct (fetch_loop_stops env api_key role n fuel 0 [] 0%Q now Hgo Hst Hn)
    as (f' & Hf' & Hall & Hreq).
  rewrite H in Hf'. injection Hf' as <-.
  exists n. split; [exact Hn|]. split; [now split|]. now split.
Qed.

Lemma stamp_bounds last now (d : duration) :
  let waits := negb (Qle_bool RATE_LIMIT (now - last)) in
  let w := (RATE_LIMIT - (now - last))%Q in
  let t := ((if waits then now + w else now) + seconds d)%Q in
  (last + RATE_LIMIT <= t)%Q /\ (now <= t)%Q.
Proof.
  intros waits w t. pose proof (seconds_nonneg d) as Hd. subst waits w t.
  destruct (Qle_bool RATE_LIMIT (now - last)) eqn:E; simpl.
  - apply Qle_bool_iff in E. split; lra.
  - assert (now - last < RATE_LIMIT)%Q as Hlt.
    { apply Qnot_le_lt. intros H. apply Qle_bool_iff in H. congruence. }
    split; lra.
Qed.

Lemma inject_nat_S m :
  (inject_Z (Z.of_nat (S m)) == inject_Z (Z.of_nat m) + 1)%Q.
Proof.
  rewrite Nat2Z.inj_succ. unfold Z.succ. now rewrite inject_Z_plus.
Qed.

Lemma stamps_app tr tr' : stamps (tr ++ tr') = stamps tr ++ stamps tr'.
Proof.
  induction tr as [|[] tr IH]; simpl; [reflexivity|exact IH|now rewrite IH].
Qed.

Lemma stamps_iteration (waits : bool) c w req t :
  stamps ((if waits then [Slept c w] else []) ++ [Requested req t]) = [t].
Proof. now destruct waits. Qed.

(** How long a loop that returns has taken, and where its stamps lie. *)
Lemma fetch_loop_duration env api_key role fuel :
  forall page acc last now f,
    fetch_loop env api_key role fuel page acc last now = Returned f ->
    (exists m,
       List.length (requests (fetch_trace f)) = S m
       /\ (last + inject_Z (Z.of_nat (S m)) * RATE_LIMIT <= fetch_end f)%Q
       /\ (now + inject_Z (Z.of_nat m) * RATE_LIMIT <= fetch_end f)%Q)
    /\ Forall (fun t => (now <= t)%Q /\ (t <= fetch_end f)%Q)
              (stamps (fetch_trace f)).
Proof.
  induction fuel as [|fuel IH]; intros page acc last now f; [discriminate|].
  cbn [fetch_loop].
  pose proof (stamp_bounds last now (lag env (trades_url role page)))
    as [Hlast Hnow]. cbv zeta in Hlast, Hnow.
  pose proof (seconds_nonneg (busy env (trades_url role page))) as Hbusy.
  destruct (read_page _ acc) as [acc' [[|]|e]].
  - intros H. apply after_Returned in H as (f' & H & _ & -> & ->).
    apply IH in H as [(m & Hlen & Hend & Hend') Hstamps].
    assert (0 <= inject_Z (Z.of_nat m) * RATE_LIMIT)%Q as Hpos.
    { apply Qmult_le_0_compat; [|discriminate].
      change 0%Q with (inject_Z 0). rewrite <- Zle_Qle. lia. }
    pose proof (inject_nat_S m) as Hm.
    pose proof (inject_nat_S (S m)) as HSm.
    split.
    + exists (S m). rewrite requests_app, requests_iteration. simpl.
      split; [now rewrite Hlen|].
      unfold RATE_LIMIT in *. split; lra.
    + rewrite stamps_app, stamps_iteration. simpl. constructor.
      * split; [exact Hnow|]. unfold RATE_LIMIT in *. lra.
      * eapply Forall_impl; [|exact Hstamps]. simpl. intros t [? ?].
        split; [lra|assumption].
  - intros [= <-]. simpl. split.
    + exists 0%nat. rewrite requests_iteration. split; [reflexivity|].
      change (inject_Z (Z.of_nat 1)) with 1%Q.
      change (inject_Z (Z.of_nat 0)) with 0%Q. split; lra.
    + rewrite stamps_iteration. repeat constructor; [exact Hnow|lra].
  - intros [= <-]. simpl. split.
    + exists 0%nat. rewrite requests_iteration. split; [reflexivity|].
      change (inject_Z (Z.of_nat 1)) with 1%Q.
      change (inject_Z (Z.of_nat 0)) with 0%Q. split; lra.
    + rewrite stamps_iteration. repeat constructor; [exact Hnow|lra].
Qed.

(** X10.  The pacing bounds the time a fetch takes from below: one that
    has sent [m + 1] requests returns at least [m] times [RATE_LIMIT]
    seconds after it was called, and it sends at least one request. *)
Theorem fetch_takes_time env fuel now api_key role f :
  fetch_csfloat_trades env fuel now api_key role = Returned f ->
  exists m,
    List.length (requests (fetch_trace f)) = S m
    /\ (now + inject_Z (Z.of_nat m) * RATE_LIMIT <= fetch_end f)%Q.
Proof.
  intros H. apply fetch_loop_duration in H as [(m & Hlen & _ & Hend) _].
  now exists m.
Qed.

(** *** The run *)

Lemma fetch_ends_later env fuel now api_key role f :
  fetch_csfloat_trades env fuel now api_key role = Returned f ->
  (now <= fetch_end f)%Q.
Proof.
  intros H. apply fetch_loop_duration in H as [(m & _ & _ & Hend) _].
  assert (0 <= inject_Z (Z.of_nat m) * RATE_LIMIT)%Q as Hpos.
  { apply Qmult_le_0_compat; [|discriminate].
    change 0%Q with (inject_Z 0). rewrite <- Zle_Qle. lia. }
  lra.
Qed.

(** What [export_role] leaves when the fetch has returned. *)
Lemma export_role_Some env fuel api_key role filename w w' err :
  export_role env fuel api_key role filename w = Some (w', err) ->
  exists f,
    fetch_csfloat_trades env fuel (clock w) api_key role = Returned f
    /\ trace w' = trace w ++ fetch_trace f
    /\ clock w' = fetch_end f
    /\ match err with
       | Some e =>
           process_trades (all_trades f) role = Raise e
           /\ files w' = files w
       | None =>
           exists rows,
             process_trades (all_trades f) role = Ok rows
             /\ files w' = <[filename := utf8 (csv_text rows)]> (files w)
       end.
Proof.
  unfold export_role, normalize_and_export.
  destruct (fetch_csfloat_trades env fuel (clock w) api_key role) as [f|];
    [|discriminate].
  destruct (process_trades (all_trades f) role) as [rows|e] eqn:Hp;
    intros [= <- <-]; exists f; repeat split; eauto.
Qed.

Lemma export_role_frame env fuel api_key role filename w w' err :
  export_role env fuel api_key role filename w = Some (w', err) ->
  (forall name, name <> filename -> files w' !! name = files w !! name)
  /\ (clock w <= clock w')%Q
  /\ exists tr, trace w' = trace w ++ tr.
Proof.
  intros H. apply export_role_Some in H as (f & Hf & Htr & Hclock & Hfiles).
  split; [|split].
  - intros name Hname. destruct err as [e|].
    + destruct Hfiles as [_ ->]. reflexivity.
    + destruct Hfiles as (rows & _ & ->).
      now rewrite lookup_insert_ne.
  - rewrite Hclock. exact (fetch_ends_later _ _ _ _ _ _ Hf).
  - eauto.
Qed.

(** The three ways [async_main] comes to an end. *)
Lemma async_main_Some env fuel w w' err :
  async_main env fuel w = Some (w', err) ->
  (optstr_falsy API_KEY = true /\ w' = w /\ err = None)
  \/ (optstr_falsy API_KEY = false
      /\ exists e,
           err = Some e
           /\ export_role env fuel (default EmptyString API_KEY) "buyer"
                "csfloat_purchases.csv" w = Some (w', Some e))
  \/ (optstr_falsy API_KEY = false
      /\ exists w1,
           export_role env fuel (default EmptyString API_KEY) "buyer"
             "csfloat_purchases.csv" w = Some (w1, None)
           /\ export_role env fuel (default EmptyString API_KEY) "seller"
                "csfloat_sales.csv" (pause env w1) = Some (w', err)).
Proof.
  unfold async_main. destruct (optstr_falsy API_KEY).
  - intros [= <- <-]. now left.
  - destruct (export_role env fuel (default EmptyString API_KEY) "buyer"
                "csfloat_purchases.csv" w) as [[w1 [e|]]|];
      [|intros H|discriminate].
    + intros [= <- <-]. right. left. eauto.
    + right. right. eauto.
Qed.

Lemma paced_Sorted tr :
  forall last, paced last tr -> Sorted apart (last :: stamps tr).
Proof.
  induction tr as [|[c w|req t] tr IH]; intros last; simpl.
  - repeat constructor.
  - intros (_ & _ & _ & H). now apply IH.
  - intros [Ht H]. constructor; [now apply IH|now constructor].
Qed.

Lemma fetch_Sorted env fuel now api_key role f :
  fetch_csfloat_trades env fuel now api_key role = Returned f ->
  Sorted apart (stamps (fetch_trace f)).
Proof.
  intros H.
  pose proof (fetch_loop_paced env api_key role fuel 0 [] 0%Q now) as Hp.
  unfold fetch_csfloat_trades in H. rewrite H in Hp. simpl in Hp.
  apply paced_Sorted in Hp. now inversion Hp.
Qed.

Lemma Sorted_app {A} (R : A -> A -> Prop) (l1 l2 : list A) :
  Sorted R l1 -> Sorted R l2 ->
  (forall a b, In a l1 -> In b l2 -> R a b) ->
  Sorted R (l1 ++ l2).
Proof.
  induction 1 as [|x l1 Hs IH Hhd]; intros H2 Hcross; [exact H2|].
  simpl. constructor.
  - apply IH; [exact H2|]. intros a b Ha Hb. apply Hcross; [now right|exact Hb].
  - destruct l1 as [|y l1]; simpl.
    + destruct l2 as [|b l2]; constructor.
      apply Hcross; now left.
    + constructor. now inversion Hhd.
Qed.

(** X11.  The pacing holds across the two fetches of a run: in a run
    that starts with no request behind it, any two consecutive requests,
    the last for the purchases and the first for the sales included, are
    stamped at least [RATE_LIMIT] seconds apart. *)
Theorem async_main_paced env fuel w w' err i a b :
  stamps (trace w) = [] ->
  async_main env fuel w = Some (w', err) ->
  stamps (trace w') !! i = Some a ->
  stamps (trace w') !! S i = Some b ->
  (a + RATE_LIMIT <= b)%Q.
Proof.
  intros Hfresh Hrun.
  apply (Sorted_adjacent apart (stamps (trace w')) i a b).
  apply async_main_Some in Hrun
    as [(_ & -> & _)|[(_ & e & _ & Hb)|(_ & w1 & Hb & Hs)]].
  - rewrite Hfresh. constructor.
  - apply export_role_Some in Hb as (fb & Hfb & -> & _).
    rewrite stamps_app, Hfresh. simpl.
    exact (fetch_Sorted _ _ _ _ _ _ Hfb).
  - apply export_role_Some in Hb as (fb & Hfb & Htr1 & Hclock1 & _).
    apply export_role_Some in Hs as (fs & Hfs & -> & _).
    simpl trace. rewrite Htr1, !stamps_app, Hfresh. simpl.
    rewrite app_nil_r.
    apply Sorted_app;
      [exact (fetch_Sorted _ _ _ _ _ _ Hfb)
      |exact (fetch_Sorted _ _ _ _ _ _ Hfs)|].
    intros x y Hx Hy.
    apply fetch_loop_duration in Hfb as [_ Hbounds].
    apply fetch_loop_duration in Hfs as [_ Hbounds'].
    rewrite Forall_forall in Hbounds, Hbounds'.
    destruct (Hbounds x Hx) as [_ Hx'].
    destruct (Hbounds' y Hy) as [Hy' _].
    simpl in Hy'. rewrite Hclock1 in Hy'.
    pose proof (seconds_nonneg (between_fetches env)) as Hbetween.
    unfold apart. lra.
Qed.

(** X12.  A run that ends with an exception of [process_trades] has
    written nothing or the purchases only.  When the purchases raise,
    no file is written and the sales are never asked for: the run ends
    with the requests of the first fetch.  When the sales raise, the
    table of the purchases has been written and the file of the sales is
    left as it was. *)
Theorem async_main_exception env fuel w w' e :
  async_main env fuel w = Some (w', Some e) ->
  let api_key := default EmptyString API_KEY in
  exists fb,
    fetch_csfloat_trades env fuel (clock w) api_key "buyer" = Returned fb
    /\ files w' !! "csfloat_sales.csv" = files w !! "csfloat_sales.csv"
    /\ match process_trades (all_trades fb) "buyer" with
       | Raise e' =>
           e' = e
           /\ files w' = files w
           /\ trace w' = trace w ++ fetch_trace fb
       | Ok rows =>
           files w'
           = <["csfloat_purchases.csv" := utf8 (csv_text rows)]> (files w)
           /\ exists fs,
                fetch_csfloat_trades env fuel
                  (fetch_end fb + RATE_LIMIT + seconds (between_fetches env))
                  api_key "seller" = Returned fs
                /\ process_trades (all_trades fs) "seller" = Raise e
       end.
Proof.
  intros Hrun api_key.
  apply async_main_Some in Hrun
    as [(_ & _ & [=])|[(_ & e' & [= <-] & Hb)|(_ & w1 & Hb & Hs)]].
  - apply export_role_Some in Hb as (fb & Hfb & Htr & _ & Hraise & Hfiles).
    exists fb. split; [exact Hfb|]. rewrite Hfiles. split; [reflexivity|].
    subst api_key. now rewrite Hraise.
  - apply export_role_Some in Hb
      as (fb & Hfb & _ & Hclock1 & rows & Hrows & Hfiles1).
    apply export_role_Some in Hs as (fs & Hfs & _ & _ & Hraise & Hfiles).
    simpl in Hfs, Hfiles. rewrite Hclock1 in Hfs.
    exists fb. split; [exact Hfb|]. rewrite Hfiles, Hfiles1. split.
    + now rewrite lookup_insert_ne.
    + subst api_key. rewrite Hrows. eauto.
Qed.

Lemma failed_stops o : failed o = true -> records o = [] /\ stops o = true.
Proof.
  unfold stops, records. destruct o as [e|status body]; [easy|].
  simpl. destruct (status =? 200)%Z; [discriminate|].
  now destruct body as [[]|].
Qed.

Lemma fetch_failed_first env fuel now api_key role :
  failed (page_outcome env role 0) = true ->
  (0 < fuel)%nat ->
  exists f,
    fetch_csfloat_trades env fuel now api_key role = Returned f
    /\ all_trades f = []
    /\ requests (fetch_trace f) = [mk_request (trades_url role 0) api_key].
Proof.
  intros Hfail Hfuel. apply failed_stops in Hfail as [Hrec Hstop].
  destruct (fetch_loop_stops env api_key role 0 fuel 0 [] 0%Q now)
    as (f & Hf & Hall & Hreq); [intros; lia|exact Hstop|exact Hfuel|].
  exists f. split; [exact Hf|]. split; [|exact Hreq].
  rewrite Hall. simpl. now rewrite Hrec.
Qed.

(** X13.  The fetch hides its failures from the run.  With a credential
    set and the first request of each role failing, by a refusal of the
    server or by an exception of the transport, the run ends normally
    after these two requests and overwrites both files with a table of
    the header alone, whatever they held. *)
Theorem async_main_failed_requests env fuel w :
  optstr_falsy API_KEY = false ->
  (0 < fuel)%nat ->
  failed (page_outcome env "buyer" 0) = true ->
  failed (page_outcome env "seller" 0) = true ->
  exists w',
    async_main env fuel w = Some (w', None)
    /\ files w' !! "csfloat_purchases.csv" = Some (utf8 (csv_record header))
    /\ files w' !! "csfloat_sales.csv" = Some (utf8 (csv_record header))
    /\ requests (trace w')
       = requests (trace w)
         ++ [ mk_request (trades_url "buyer" 0) (default EmptyString API_KEY);
              mk_request (trades_url "seller" 0)
                         (default EmptyString API_KEY) ].
Proof.
  intros Hkey Hfuel Hb Hs. unfold async_main. rewrite Hkey.
  unfold export_role at 1.
  destruct (fetch_failed_first env fuel (clock w)
              (default EmptyString API_KEY) "buyer" Hb Hfuel)
    as (fb & -> & Hallb & Hreqb).
  unfold normalize_and_export. rewrite Hallb.
  change (process_trades [] "buyer") with (Ok (A:=list row) []).
  cbv iota. unfold export_role.
  match goal with
  | |- context [fetch_csfloat_trades env fuel ?now ?k "seller"] =>
      destruct (fetch_failed_first env fuel now k "seller" Hs Hfuel)
        as (fs & -> & Halls & Hreqs)
  end.
  unfold normalize_and_export. rewrite Halls.
  change (process_trades [] "seller") with (Ok (A:=list row) []).
  cbv iota. eexists. split; [reflexivity|].
  cbn [files trace export_to_csv pause]. split; [|split].
  - rewrite lookup_insert_ne by discriminate. apply lookup_insert_eq.
  - apply lookup_insert_eq.
  - rewrite !requests_app, Hreqb, Hreqs. cbn [requests].
    now rewrite app_nil_r, <- app_assoc.
Qed.

(** X14.  What a run leaves alone: no file but [csfloat_purchases.csv]
    and [csfloat_sales.csv] is created, changed or removed; the clock
    never goes back; and what was in the trace stays there, the run only
    adds to it.  This holds for the runs that end with an exception as
    for the others. *)
Theorem async_main_frame env fuel w w' err :
  async_main env fuel w = Some (w', err) ->
  (forall name,
     name <> "csfloat_purchases.csv" -> name <> "csfloat_sales.csv" ->
     files w' !! name = files w !! name)
  /\ (clock w <= clock w')%Q
  /\ exists tr, trace w' = trace w ++ tr.
Proof.
  intros Hrun.
  apply async_main_Some in Hrun
    as [(_ & -> & _)|[(_ & e & _ & Hb)|(_ & w1 & Hb & Hs)]].
  - split; [reflexivity|]. split; [lra|]. exists []. now rewrite app_nil_r.
  - apply export_role_frame in Hb as (Hfiles & Hclock & Htr).
    split; [|split; assumption]. intros name Hp _. now apply Hfiles.
  - apply export_role_frame in Hb as (Hfiles1 & Hclock1 & tr1 & Htr1).
    apply export_role_frame in Hs as (Hfiles & Hclock & tr & Htr).
    simpl in Hfiles, Hclock, Htr.
    pose proof (seconds_nonneg (between_fetches env)) as Hbetween.
    split; [|split].
    + intros name Hp Hsl. rewrite Hfiles by exact Hsl. now apply Hfiles1.
    + unfold RATE_LIMIT in *. lra.
    + rewrite Htr, Htr1, <- !app_assoc. eauto.
Qed.

(** *** The writer loses nothing *)

Lemma string_app_assoc (a b c : string) :
  ((a ++ b) ++ c = a ++ (b ++ c))%string.
Proof.
  induction a as [|x a IH]; [reflexivity|].
  change (String x ((a ++ b) ++ c) = String x (a ++ (b ++ c)))%string.
  now rewrite IH.
Qed.

(** What follows a field in a record: a comma or the line end, in any
    case a character that would have been quoted and is no quote. *)
Lemma plain_field_inj x y c1 r1 c2 r2 :
  needs_quotes x = false -> needs_quotes y = false ->
  special c1 = true -> special c2 = true ->
  (x ++ String c1 r1 = y ++ String c2 r2)%string ->
  x = y /\ String c1 r1 = String c2 r2.
Proof.
  intros Hx Hy H1 H2. revert y Hy.
  induction x as [|a x IH]; intros [|b y] Hy; simpl in *.
  - intros [= -> ->]. easy.
  - intros [= -> _]. apply orb_false_iff in Hy as [Hy _]. congruence.
  - intros [= -> _]. apply orb_false_iff in Hx as [Hx _]. congruence.
  - intros [= -> H]. apply orb_false_iff in Hx as [_ Hx].
    apply orb_false_iff in Hy as [_ Hy].
    destruct (IH Hx y Hy H) as [-> ?]. easy.
Qed.

Lemma quoted_field_inj x y c1 r1 c2 r2 :
  c1 <> quotechar -> c2 <> quotechar ->
  (double_quotes x ++ String quotechar (String c1 r1)
   = double_quotes y ++ String quotechar (String c2 r2))%string ->
  x = y /\ String c1 r1 = String c2 r2.
Proof.
  intros H1 H2. revert y.
  induction x as [|a x IH]; intros [|b y]; cbn [double_quotes].
  - intros [= -> ->]. easy.
  - destruct (Ascii.eqb b quotechar) eqn:Hb.
    + apply Ascii.eqb_eq in Hb as ->. intros [= ->]. contradiction.
    + apply Ascii.eqb_neq in Hb. intros [= <-]. contradiction.
  - destruct (Ascii.eqb a quotechar) eqn:Ha.
    + apply Ascii.eqb_eq in Ha as ->. intros [= <-]. contradiction.
    + apply Ascii.eqb_neq in Ha. intros [= ->]. contradiction.
  - destruct (Ascii.eqb a quotechar) eqn:Ha,
             (Ascii.eqb b quotechar) eqn:Hb.
    + apply Ascii.eqb_eq in Ha as ->. apply Ascii.eqb_eq in Hb as ->.
      intros [= H]. destruct (IH y H) as [-> ?]. easy.
    + apply Ascii.eqb_eq in Ha as ->. apply Ascii.eqb_neq in Hb.
      intros [= <-]. contradiction.
    + apply Ascii.eqb_eq in Hb as ->. apply Ascii.eqb_neq in Ha.
      intros [= ->]. contradiction.
    + intros [= -> H]. destruct (IH y H) as [-> ?]. easy.
Qed.

Lemma plain_field_no_quote x c r rest :
  needs_quotes x = false -> c <> quotechar ->
  (x ++ String c r)%string <> String quotechar rest.
Proof.
  intros Hx Hc. destruct x as [|a x]; simpl; intros [= -> _].
  - contradiction.
  - discriminate Hx.
Qed.

Lemma quoted_field_app x c r :
  (String quotechar (double_quotes x ++ String quotechar EmptyString)
   ++ String c r
   = String quotechar
       (double_quotes x ++ String quotechar (String c r)))%string.
Proof.
  change (String quotechar
            ((double_quotes x ++ String quotechar EmptyString) ++ String c r)
          = String quotechar
              (double_quotes x ++ String quotechar (String c r)))%string.
  now rewrite string_app_assoc.
Qed.

Lemma csv_field_inj x y c1 r1 c2 r2 :
  special c1 = true -> special c2 = true ->
  c1 <> quotechar -> c2 <> quotechar ->
  (csv_field x ++ String c1 r1 = csv_field y ++ String c2 r2)%string ->
  x = y /\ String c1 r1 = String c2 r2.
Proof.
  intros Hs1 Hs2 Hq1 Hq2. unfold csv_field.
  destruct (needs_quotes x) eqn:Hx, (needs_quotes y) eqn:Hy.
  - rewrite !quoted_field_app. intros [= H].
    now apply quoted_field_inj in H.
  - rewrite quoted_field_app. intros H. symmetry in H.
    now apply plain_field_no_quote in H.
  - rewrite quoted_field_app. intros H.
    now apply plain_field_no_quote in H.
  - now apply plain_field_inj.
Qed.

Lemma csv_record_cons x x' fields :
  csv_record (x :: x' :: fields)
  = (csv_field x ++ String "," (csv_record (x' :: fields)))%string.
Proof.
  unfold csv_record. cbn [List.map String.concat].
  now rewrite string_app_assoc.
Qed.

(** X15.  The quoting of the writer is unambiguous: two records of
    equally many fields, two or more, that are written as the same line
    have the same fields, whatever commas, quotes and line breaks the
    fields hold.  So two rows that give the same line of a table have
    the same six cells. *)
Theorem csv_record_injective :
  (forall a b,
     (2 <= List.length a)%nat -> List.length a = List.length b ->
     csv_record a = csv_record b -> a = b)
  /\ (forall r r',
        csv_record (row_cells r) = csv_record (row_cells r') ->
        row_cells r = row_cells r').
Proof.
  assert (forall a b,
            List.length a = List.length b ->
            csv_record a = csv_record b -> a = b) as Hinj.
  { induction a as [|x a IH]; intros [|y b] Hlen; try discriminate;
      [reflexivity|].
    destruct a as [|x' a], b as [|y' b]; try discriminate.
    - unfold csv_record. cbn [List.map String.concat]. intros H.
      apply csv_field_inj in H as [-> _]; easy.
    - rewrite !csv_record_cons. intros H.
      apply csv_field_inj in H as [-> H]; try easy.
      injection H as H. f_equal. apply IH; [|exact H].
      simpl in *. lia. }
  split; [intros a b _; apply Hinj|]. intros r r'. now apply Hinj.
Qed.

(** *** Suspensions and termination *)

Lemma events_after evs r : events (after evs r) = evs ++ events r.
Proof. now destruct r. Qed.

Lemma fetch_loop_short_sleeps env api_key role fuel :
  forall page acc last now,
    (last <= now)%Q ->
    Forall short_sleep
           (events (fetch_loop env api_key role fuel page acc last now)).
Proof.
  induction fuel as [|fuel IH]; intros page acc last now Hlast;
    [constructor|].
  cbn [fetch_loop].
  pose proof (seconds_nonneg (busy env (trades_url role page))) as Hbusy.
  assert (Forall short_sleep
            ((if negb (Qle_bool RATE_LIMIT (now - last))
              then [Slept now (RATE_LIMIT - (now - last))] else [])
             ++ [Requested (mk_request (trades_url role page) api_key)
                   ((if negb (Qle_bool RATE_LIMIT (now - last))
                     then now + (RATE_LIMIT - (now - last)) else now)
                    + seconds (lag env (trades_url role page)))]))
    as Hevs.
  { destruct (Qle_bool RATE_LIMIT (now - last)) eqn:E; simpl;
      repeat constructor.
    - apply Qnot_le_lt. intros H.
      assert (RATE_LIMIT <= now - last)%Q as H' by lra.
      apply Qle_bool_iff in H'. congruence.
    - lra. }
  destruct (read_page _ acc) as [acc' [[|]|e]]; [|exact Hevs..].
  rewrite events_after. apply Forall_app. split; [exact Hevs|].
  apply IH. lra.
Qed.

(** X17.  A fetch called when the clock reads no less than 0 never
    suspends itself for longer than [RATE_LIMIT] seconds at a time, nor
    for a time that is not positive. *)
Theorem fetch_short_sleeps env fuel now api_key role :
  (0 <= now)%Q ->
  Forall short_sleep
         (events (fetch_csfloat_trades env fuel now api_key role)).
Proof. apply fetch_loop_short_sleeps. Qed.

(** X18.  When each role has a page that gives a reason to stop, and
    fuel to reach it, the run ends, whatever the records are.  The
    exception it ends with is the first that [process_trades] raises,
    on the purchases or else on the sales, and none when neither
    raises; and it has sent the requests of the pages of the purchases
    and, unless the purchases raised, those of the sales. *)
Theorem async_main_terminates env fuel w nb ns :
  last_page env "buyer" nb -> (nb < fuel)%nat ->
  last_page env "seller" ns -> (ns < fuel)%nat ->
  let api_key := default EmptyString API_KEY in
  let purchases := process_trades (pages_upto env "buyer" (S nb)) "buyer" in
  let sales := process_trades (pages_upto env "seller" (S ns)) "seller" in
  exists w',
    async_main env fuel w
    = Some (w',
            if optstr_falsy API_KEY then None else
            match purchases, sales with
            | Raise e, _ => Some e
            | Ok _, Raise e => Some e
            | Ok _, Ok _ => None
            end)
    /\ requests (trace w')
       = requests (trace w)
         ++ (if optstr_falsy API_KEY then [] else
             requests_upto api_key "buyer" (S nb)
             ++ match purchases with
                | Ok _ => requests_upto api_key "seller" (S ns)
                | Raise _ => []
                end).
Proof.
  intros [Hstopb Hgob] Hnb [Hstops Hgos] Hns api_key purchases sales.
  unfold async_main. destruct (optstr_falsy API_KEY).
  { exists w. split; [reflexivity|]. now rewrite app_nil_r. }
  fold api_key. unfold export_role at 1.
  destruct (fetch_loop_stops env api_key "buyer" nb fuel 0 [] 0%Q (clock w)
              Hgob Hstopb Hnb) as (fb & Hfb & Hallb & Hreqb).
  change (fetch_csfloat_trades env fuel (clock w) api_key "buyer"
          = Returned fb) in Hfb.
  change (all_trades fb = pages_upto env "buyer" (S nb)) in Hallb.
  change (requests (fetch_trace fb) = requests_upto api_key "buyer" (S nb))
    in Hreqb.
  rewrite Hfb. unfold normalize_and_export. rewrite Hallb.
  fold purchases. destruct purchases as [rows|e].
  2:{ eexists. split; [reflexivity|]. cbn [trace].
      now rewrite requests_app, Hreqb, app_nil_r. }
  unfold export_role.
  match goal with
  | |- context [fetch_csfloat_trades env fuel ?now api_key "seller"] =>
      destruct (fetch_loop_stops env api_key "seller" ns fuel 0 [] 0%Q now
                  Hgos Hstops Hns) as (fs & Hfs & Halls & Hreqs);
      change (fetch_csfloat_trades env fuel now api_key "seller"
              = Returned fs) in Hfs
  end.
  change (all_trades fs = pages_upto env "seller" (S ns)) in Halls.
  change (requests (fetch_trace fs) = requests_upto api_key "seller" (S ns))
    in Hreqs.
  rewrite Hfs. unfold normalize_and_export. rewrite Halls.
  fold sales. destruct sales as [rows'|e];
    (eexists; split; [reflexivity|];
     cbn [trace export_to_csv pause];
     rewrite !requests_app, Hreqb, Hreqs; cbn [requests];
     now rewrite app_nil_r, <- app_assoc).
Qed.

End Config.

(** What a fetch that returns has asked for first. *)
Lemma fetch_first_request env fuel now api_key role f :
  fetch_csfloat_trades env fuel now api_key role = Returned f ->
  exists rest,
    requests (fetch_trace f)
    = mk_request (trades_url role 0) api_key :: rest.
Proof.
  unfold fetch_csfloat_trades. intros H.
  destruct (fetch_loop_Returned _ _ _ _ _ _ _ _ _ H) as (n & Hn & Hgo & Hst).
  destruct (fetch_loop_stops env api_key role n fuel 0 [] 0%Q now Hgo Hst Hn)
    as (f' & Hf' & _ & Hreq).
  rewrite H in Hf'. injection Hf' as <-. rewrite Hreq. simpl. eauto.
Qed.

(** Without a configured identity the identity condition asks for a
    [steam_id] that is missing or null. *)
Lemma keeps_no_identity r trade :
  keeps None r trade
  = state_verified trade
    && is_none (field [role_name r; "steam_id"] trade)
    && has_date trade.
Proof.
  unfold keeps, identity_matches.
  now destruct (field [role_name r; "steam_id"] trade).
Qed.

(** C10 (amended).  Only a missing (or empty) credential stops the run
    before it fetches or writes anything: with a credential, whatever
    the identity, a run that ends has first asked for page 0 of the
    purchases.  The identity is never looked at for being there.  With
    the identity [None], on records of any shape, the body of the loop
    whenever it returns gives a row exactly for a verified record that
    has a non-empty [accepted_at] or [verified_at] and whose
    role-matching [steam_id] is missing or null, and no row for a record
    whose [steam_id] is anything else; these three conditions are what
    [keeps] asks for without an identity, so that [process_trades],
    whenever it returns, returns one row for each such record.  When
    moreover the records fetched are well-formed and both fetches
    return, the run with the identity [None] and a credential fetches
    both roles, raises nothing and writes both files with exactly these
    records; and on a well-formed record the body of the loop always
    returns. *)
Theorem identity_never_checked env fuel w :
  (forall STEAM_ID API_KEY,
     optstr_falsy API_KEY = true ->
     async_main STEAM_ID API_KEY env fuel w = Some (w, None))
  /\ (forall STEAM_ID API_KEY w' err,
        optstr_falsy API_KEY = false ->
        async_main STEAM_ID API_KEY env fuel w = Some (w', err) ->
        exists rest,
          requests (trace w')
          = requests (trace w)
            ++ mk_request (trades_url "buyer" 0)
                          (default EmptyString API_KEY) :: rest)
  /\ (forall r trade o,
        process_trade None (role_name r) trade = Ok o ->
        ((exists row, o = Some row)
         <-> state_verified trade = true
             /\ has_date trade = true
             /\ field [role_name r; "steam_id"] trade = JNull)
        /\ (field [role_name r; "steam_id"] trade <> JNull -> o = None))
  /\ (forall r trade,
        keeps None r trade = true
        <-> state_verified trade = true
            /\ has_date trade = true
            /\ field [role_name r; "steam_id"] trade = JNull)
  /\ (forall r trades rows,
        process_trades None trades (role_name r) = Ok rows ->
        exists processed,
          Forall2 (fun t row =>
                     process_trade None (role_name r) t = Ok (Some row))
                  (List.filter (keeps None r) trades) processed
          /\ rows = sort_by_date processed)
  /\ (forall api_key nb ns,
        api_key <> EmptyString ->
        last_page env "buyer" nb -> (nb < fuel)%nat ->
        last_page env "seller" ns -> (ns < fuel)%nat ->
        Forall (fun t => well_formed Buyer t = true)
               (pages_upto env "buyer" (S nb)) ->
        Forall (fun t => well_formed Seller t = true)
               (pages_upto env "seller" (S ns)) ->
        exists w' purchases sales,
          async_main None (Some api_key) env fuel w = Some (w', None)
          /\ Forall2 (fun t row =>
                        process_trade None "buyer" t = Ok (Some row))
                     (List.filter (keeps None Buyer)
                                  (pages_upto env "buyer" (S nb)))
                     purchases
          /\ Forall2 (fun t row =>
                        process_trade None "seller" t = Ok (Some row))
                     (List.filter (keeps None Seller)
                                  (pages_upto env "seller" (S ns)))
                     sales
          /\ files w' !! "csfloat_purchases.csv"
             = Some (utf8 (csv_text (sort_by_date purchases)))
          /\ files w' !! "csfloat_sales.csv"
             = Some (utf8 (csv_text (sort_by_date sales)))
          /\ requests (trace w')
             = requests (trace w)
               ++ requests_upto api_key "buyer" (S nb)
               ++ requests_upto api_key "seller" (S ns))
  /\ (forall r trade,
        well_formed r trade = true ->
        ((exists row,
            process_trade None (role_name r) trade = Ok (Some row))
         <-> state_verified trade = true
             /\ has_date trade = true
             /\ field [role_name r; "steam_id"] trade = JNull)
        /\ (field [role_name r; "steam_id"] trade <> JNull ->
            process_trade None (role_name r) trade = Ok None)).
Proof.
  split; [|split; [|split; [|split; [|split; [|split]]]]].
  - intros STEAM_ID API_KEY H. unfold async_main. now rewrite H.
  - intros STEAM_ID API_KEY w' err Hkey Hrun.
    apply async_main_Some in Hrun
      as [(Hfalsy & _)|[(_ & e & _ & Hb)|(_ & w1 & Hb & Hs)]];
      [congruence| |].
    + apply export_role_Some in Hb as (fb & Hfb & -> & _).
      apply fetch_first_request in Hfb as (rest & Hreq).
      rewrite requests_app, Hreq. eauto.
    + apply export_role_Some in Hb as (fb & Hfb & Htr1 & _).
      apply export_role_Some in Hs as (fs & _ & -> & _).
      apply fetch_first_request in Hfb as (rest & Hreq).
      cbn [trace pause]. rewrite Htr1, !requests_app, Hreq.
      rewrite <- !app_assoc. cbn [app]. eauto.
  - intros r trade o H.
    apply process_trade_Ok_keeps in H. rewrite keeps_no_identity in H.
    destruct (state_verified trade), (has_date trade),
      (field [role_name r; "steam_id"] trade), o as [row|];
      simpl in H; try discriminate H;
      (split;
       [split; [intros (row' & Hrow'); try discriminate;
                repeat split; congruence
               |intros (? & ? & ?); try discriminate; eauto]
       |intros; congruence]).
  - intros r trade. rewrite keeps_no_identity, !andb_true_iff.
    destruct (field [role_name r; "steam_id"] trade); simpl;
      (split; [intros [[Hv Hn] Hd]|intros (Hv & Hd & Hn)]);
      try discriminate; auto.
  - intros r trades rows H. unfold process_trades in H.
    apply bind_Ok in H as (processed & Hloop & [= <-]).
    apply process_loop_Ok_keeps in Hloop as (rows & Hrows & ->).
    now exists rows.
  - intros api_key nb ns Hkey Hb Hnb Hs Hns Hwfb Hwfs.
    unfold async_main.
    assert (optstr_falsy (Some api_key) = false) as ->
      by now destruct api_key.
    simpl default.
    destruct (export_role_well_formed None env fuel api_key Buyer
                "csfloat_purchases.csv" w nb Hb Hnb Hwfb)
      as (fb & purchases & Hrunb & Hp & Hrb).
    simpl role_name in Hrunb, Hp, Hrb. rewrite Hrunb.
    destruct (export_role_well_formed None env fuel api_key Seller
                "csfloat_sales.csv"
                (pause env
                   (export_to_csv (sort_by_date purchases)
                      "csfloat_purchases.csv"
                      (mk_world (files w) (fetch_end fb)
                                (trace w ++ fetch_trace fb))))
                ns Hs Hns Hwfs)
      as (fs & sales & Hruns & Hsl & Hrs).
    simpl role_name in Hruns, Hsl, Hrs. rewrite Hruns.
    eexists _, purchases, sales. split; [reflexivity|].
    split; [exact Hp|]. split; [exact Hsl|]. simpl. split; [|split].
    + rewrite lookup_insert_ne by discriminate. apply lookup_insert_eq.
    + apply lookup_insert_eq.
    + rewrite !requests_app, Hrb, Hrs. cbn [requests].
      now rewrite app_nil_r, <- app_assoc.
  - intros r trade Hwf.
    pose proof (process_trade_well_formed None r trade Hwf) as H.
    assert (identity_matches None r trade
            = is_none (field [role_name r; "steam_id"] trade)) as Hid
      by (unfold identity_matches;
          now destruct (field [role_name r; "steam_id"] trade)).
    unfold keeps in H. rewrite Hid in H.
    destruct (state_verified trade), (has_date trade),
      (field [role_name r; "steam_id"] trade) eqn:Hf; simpl in H;
      try destruct H as (row & H); rewrite ?H; (split;
        [split; [intros (row' & Hrow'); try discriminate;
                 repeat split; congruence
                |intros (? & ? & ?); try discriminate; eauto]
        |intros; congruence]).
Qed.

(** X16.  The role is compared as a string with "buyer" and "seller" and
    nothing else is checked: for any other role no identity is looked at,
    so that the result is the same under every configured identity, and
    no fee is taken off the price. *)
Theorem process_trades_other_role role id1 id2 trades :
  role <> "buyer" -> role <> "seller" ->
  process_trades id1 trades role = process_trades id2 trades role
  /\ forall trade row,
       process_trade id1 role trade = Ok (Some row) ->
       format_price (field ["contract"; "price"] trade) false
       = Ok (price row).
Proof.
  intros Hb Hs. apply String.eqb_neq in Hb, Hs. split.
  - assert (forall t, process_trade id1 role t = process_trade id2 role t)
      as Hbody
      by (intros t; unfold process_trade, other_party; now rewrite Hb, Hs).
    unfold process_trades.
    assert (forall acc, process_loop id1 role trades acc
                        = process_loop id2 role trades acc) as ->;
      [|reflexivity].
    induction trades as [|t trades IH]; intros acc; simpl; [reflexivity|].
    rewrite Hbody.
    destruct (process_trade id2 role t); cbn [mbind result_bind Py.bind];
      [apply IH|reflexivity].
  - intros trade row H.
    apply process_trade_Ok in H as (s & _ & _ & _ & H & _).
    now rewrite Hs in H.
Qed.

End Library.

(** ** The statements on the reference library *)

Local Abbreviation lib_process_trade :=
  (process_trade Datetime.fromisoformat Datetime.strftime_Ymd
                 Samples.float_of_str).
Local Abbreviation lib_process_trades :=
  (process_trades Datetime.fromisoformat Datetime.strftime_Ymd
                  Samples.float_of_str).
Local Abbreviation lib_format_date :=
  (format_date Datetime.fromisoformat Datetime.strftime_Ymd).
Local Abbreviation lib_three_tier :=
  (three_tier Datetime.fromisoformat Datetime.strftime_Ymd).
Local Abbreviation lib_well_formed := (well_formed Samples.float_of_str).
Local Abbreviation lib_normalize_and_export :=
  (normalize_and_export Datetime.fromisoformat Datetime.strftime_Ymd
     Samples.float_of_str Samples.str_of_float Samples.str_of_json).
Local Abbreviation lib_async_main :=
  (async_main Datetime.fromisoformat Datetime.strftime_Ymd
     Samples.float_of_str Samples.str_of_float Samples.str_of_json).

(** C3.  The date of every row comes from the chosen date string,
    [accepted_at] when it is there and [verified_at] otherwise, by the three
    tiers: the date of the parsed timestamp, every [Z] read as [+00:00],
    when the parser accepts it; else the text before the first [T] when
    there is a [T]; else the first ten characters.  With the reference
    parser the three examples of the specification all give
    [2023-05-01], the first by tier 1, the second by tier 2 and the third
    by tier 3. *)
Theorem date_three_tier :
  (forall fromisoformat strftime_Ymd float_of_str STEAM_ID role trade row,
     process_trade fromisoformat strftime_Ymd float_of_str STEAM_ID
                   role trade = Ok (Some row) ->
     exists s,
       chosen_date trade = JStr s
       /\ date row = three_tier fromisoformat strftime_Ymd s
       /\ match fromisoformat (replace "Z" "+00:00" s) with
          | Some d => date row = strftime_Ymd d
          | None =>
              if contains "T" s
              then contains "T" (date row) = false
                   /\ exists rest, s = (date row ++ String "T" rest)%string
              else String.length (date row) = Nat.min 10 (String.length s)
                   /\ exists rest, s = (date row ++ rest)%string
          end)
  /\ (lib_format_date (JStr "2023-05-01T12:00:00Z") = Ok "2023-05-01"
      /\ exists d, Datetime.fromisoformat "2023-05-01T12:00:00+00:00" = Some d)
  /\ (lib_format_date (JStr "2023-05-01Txyz") = Ok "2023-05-01"
      /\ Datetime.fromisoformat "2023-05-01Txyz" = None)
  /\ (lib_format_date (JStr "2023-05-01garbage") = Ok "2023-05-01"
      /\ Datetime.fromisoformat "2023-05-01garbage" = None
      /\ contains "T" "2023-05-01garbage" = false).
Proof.
  split; [|repeat split; try reflexivity; eexists; reflexivity].
  intros fromisoformat strftime_Ymd float_of_str STEAM_ID role trade row H.
  apply process_trade_Ok in H as (s & Hs & _ & Hdate & _).
  exists s. split; [exact Hs|]. split; [exact Hdate|].
  rewrite Hdate. unfold three_tier.
  destruct (fromisoformat _); [reflexivity|].
  destruct (contains "T" s) eqn:HT.
  - now apply split_head_T.
  - apply slice_to_prefix.
Qed.

Lemma date_three_tier_witness :
  lib_process_trade (Some "123") "buyer" Samples.earlier_trade
  = Ok (Some (mk_row (JStr "Unknown")
                (S754_finite false 7315534644709949 (-48)) None
                (JStr "Unknown") "2022-11-30" (JStr "def")))
  /\ exists s,
       chosen_date Samples.earlier_trade = JStr s
       /\ "2022-11-30" = lib_three_tier s.
Proof.
  assert (lib_process_trade (Some "123") "buyer" Samples.earlier_trade
          = Ok (Some (mk_row (JStr "Unknown")
                        (S754_finite false 7315534644709949 (-48)) None
                        (JStr "Unknown") "2022-11-30" (JStr "def")))) as H
    by (vm_compute; reflexivity).
  split; [exact H|].
  destruct (proj1 date_three_tier _ _ _ _ _ _ _ H) as (s & Hs & Hd & _).
  exists s. split; [exact Hs|exact Hd].
Defined.

(** ** The statements at work on the samples *)

Lemma history_well_formed :
  Forall (fun t => lib_well_formed Buyer t = true) Samples.history.
Proof. repeat constructor. Qed.

Lemma process_trades_keeps_witness :
  Forall (fun t => lib_well_formed Buyer t = true) Samples.history
  /\ List.filter (keeps (Some "123") Buyer) Samples.history
     = [Samples.verified_trade; Samples.earlier_trade]
  /\ exists rows,
       Forall2 (fun t row =>
                  lib_process_trade (Some "123") "buyer" t = Ok (Some row))
               [Samples.verified_trade; Samples.earlier_trade] rows
       /\ lib_process_trades (Some "123") Samples.history "buyer"
          = Ok (sort_by_date rows).
Proof.
  split; [exact history_well_formed|]. split; [reflexivity|].
  destruct (process_trades_keeps Datetime.fromisoformat
              Datetime.strftime_Ymd Samples.float_of_str (Some "123")
              Buyer Samples.history history_well_formed)
    as (rows & Hrows & Hsorted & _ & _).
  exists rows. split; [exact Hrows|exact Hsorted].
Defined.

(** A record whose [buyer] is [null] fails the identity condition, and is
    not dropped: the whole call raises.  And a record that meets the three
    conditions, with a price beyond the floats, gives no row: the call
    raises again. *)
Lemma process_trades_null_buyer :
  (keeps (Some "123") Buyer Samples.null_buyer_trade = false
   /\ lib_process_trades (Some "123") [Samples.null_buyer_trade] "buyer"
      = Raise AttributeError)
  /\ (keeps (Some "123") Buyer Samples.overpriced_trade = true
      /\ lib_process_trades (Some "123") [Samples.overpriced_trade] "buyer"
         = Raise OverflowError)
  /\ ~ (forall trades, exists rows,
          lib_process_trades (Some "123") trades "buyer" = Ok rows).
Proof.
  split; [split; reflexivity|]. split; [split; vm_compute; reflexivity|].
  intros H. destruct (H [Samples.null_buyer_trade]) as (rows & Hrows).
  discriminate Hrows.
Qed.

Lemma format_price_by_role_witness :
  unparseable (JStr "12.50") = true
  /\ format_price (JStr "12.50") true = Ok zero
  /\ (exists row,
        lib_process_trade (Some "123") "seller" Samples.verified_trade
        = Ok (Some row)
        /\ price row = of_Z 98)
  /\ format_price (JInt 10000) true = Ok (of_Z 98)
  /\ format_price (JInt 10000) false = Ok (of_Z 100).
Proof.
  destruct (format_price_by_role Datetime.fromisoformat
              Datetime.strftime_Ymd Samples.float_of_str (Some "123") Seller)
    as (_ & _ & Hstr & Hrow).
  split; [reflexivity|]. split; [exact (Hstr (JStr "12.50") eq_refl)|].
  assert (exists row,
            lib_process_trade (Some "123") "seller" Samples.verified_trade
            = Ok (Some row)) as (row & H)
    by (eexists; vm_compute; reflexivity).
  assert (price row = of_Z 98) as Hprice.
  { pose proof (Hrow _ _ H) as Hp. vm_compute in Hp.
    injection Hp as Hp. exact (eq_sym Hp). }
  split; [exists row; split; assumption|]. split; reflexivity.
Defined.

(** The purchases of the sample history, as the file holds them *)
Lemma history_purchases_csv :
  exists rows,
    lib_process_trades (Some "123") Samples.history "buyer" = Ok rows
    /\ csv_text Samples.str_of_float Samples.str_of_json rows
       = (csv_record header
          ++ csv_record [ "Unknown"; "25.99"; EmptyString; "Unknown";
                          "2022-11-30"; "def" ]
          ++ csv_record [ "AK-47"; "100.0"; "0.15"; "Rifle";
                          "2023-01-15"; "abc" ])%string.
Proof.
  destruct (lib_process_trades (Some "123") Samples.history "buyer")
    as [rows|e] eqn:H; vm_compute in H; [|discriminate H].
  injection H as <-. eexists. split; [reflexivity|].
  vm_compute. reflexivity.
Qed.

Lemma two_pages_last_page : last_page Samples.two_pages "buyer" 1.
Proof.
  split; [vm_compute; reflexivity|].
  intros [|k] Hk; [vm_compute; reflexivity|lia].
Qed.

Lemma fetch_pagination_witness :
  last_page Samples.two_pages "buyer" 1
  /\ List.length (records (page_outcome Samples.two_pages "buyer" 0)) = 500%nat
  /\ List.length (records (page_outcome Samples.two_pages "buyer" 1)) = 200%nat
  /\ exists f,
       fetch_csfloat_trades Samples.two_pages 5 1700000000 "key" "buyer"
       = Returned f
       /\ all_trades f = List.repeat Samples.verified_trade 500
                         ++ List.repeat Samples.earlier_trade 200
       /\ List.length (all_trades f) = 700%nat
       /\ requests (fetch_trace f)
          = [ mk_request (trades_url "buyer" 0) "key";
              mk_request (trades_url "buyer" 1) "key" ].
Proof.
  assert (List.length (records (page_outcome Samples.two_pages "buyer" 0))
          = 500%nat) as H0 by (vm_compute; reflexivity).
  assert (List.length (records (page_outcome Samples.two_pages "buyer" 1))
          = 200%nat) as H1 by (vm_compute; reflexivity).
  split; [exact two_pages_last_page|]. split; [exact H0|]. split; [exact H1|].
  destruct (fetch_pagination Samples.two_pages "key" "buyer" 1700000000)
    as (_ & _ & Hexample).
  destruct (Hexample 5%nat H0 H1) as (f & Hf & Hall & Hlen & Hreq); [lia|].
  exists f. split; [exact Hf|]. split; [|split; [exact Hlen|exact Hreq]].
  rewrite Hall. vm_compute. reflexivity.
Defined.

Lemma fetch_partial_on_failure_witness :
  (forall k, (k < 1)%nat ->
             stops (page_outcome Samples.second_page_refused "buyer" k) = false)
  /\ failed (page_outcome Samples.second_page_refused "buyer" 1) = true
  /\ exists f,
       fetch_csfloat_trades Samples.second_page_refused 2 1700000000
                            "key" "buyer" = Returned f
       /\ all_trades f = List.repeat Samples.verified_trade 500
       /\ requests (fetch_trace f)
          = requests_upto "key" "buyer" 2.
Proof.
  assert (forall k, (k < 1)%nat ->
            stops (page_outcome Samples.second_page_refused "buyer" k) = false)
    as Hgo by (intros [|k] Hk; [vm_compute; reflexivity|lia]).
  assert (failed (page_outcome Samples.second_page_refused "buyer" 1) = true)
    as Hfail by (vm_compute; reflexivity).
  split; [exact Hgo|]. split; [exact Hfail|].
  destruct (fetch_partial_on_failure Samples.second_page_refused "key"
              "buyer" 1700000000 1 2 Hgo Hfail) as (f & Hf & Hall & _ & Hreq);
    [lia|].
  exists f. split; [exact Hf|]. split; [|exact Hreq].
  rewrite Hall. vm_compute. reflexivity.
Defined.

Lemma fetch_rate_limited_witness :
  stamps (events (fetch_csfloat_trades Samples.two_pages 5 1700000000
                    "key" "buyer"))
  = [1700000000; (6800000480 # 4)]%Q
  /\ paced 0 (events (fetch_csfloat_trades Samples.two_pages 5 1700000000
                        "key" "buyer"))
  /\ (0 + RATE_LIMIT <= 1700000000)%Q
  /\ (1700000000 + RATE_LIMIT <= 6800000480 # 4)%Q.
Proof.
  assert (stamps (events (fetch_csfloat_trades Samples.two_pages 5
                            1700000000 "key" "buyer"))
          = [1700000000; (6800000480 # 4)]%Q) as Hs
    by (vm_compute; reflexivity).
  destruct (fetch_rate_limited Samples.two_pages 5 1700000000 "key" "buyer")
    as (Hpaced & Hgap).
  split; [exact Hs|]. split; [exact Hpaced|]. split.
  - apply (Hgap 0%nat); rewrite Hs; reflexivity.
  - apply (Hgap 1%nat); rewrite Hs; reflexivity.
Defined.

Lemma process_trades_sorted_witness :
  exists rows a b,
    lib_process_trades (Some "123") Samples.history "buyer" = Ok rows
    /\ rows !! 0%nat = Some a
    /\ rows !! 1%nat = Some b
    /\ date a = "2022-11-30"
    /\ date b = "2023-01-15"
    /\ String.leb (date a) (date b) = true.
Proof.
  destruct (lib_process_trades (Some "123") Samples.history "buyer")
    as [rows|e] eqn:H; [|vm_compute in H; discriminate H].
  assert (exists a b, rows !! 0%nat = Some a /\ rows !! 1%nat = Some b
                      /\ date a = "2022-11-30" /\ date b = "2023-01-15")
    as (a & b & Ha & Hb & Hda & Hdb).
  { vm_compute in H. injection H as <-. do 2 eexists. repeat split. }
  exists rows, a, b. repeat split; try assumption.
  exact (process_trades_sorted _ _ _ _ _ _ _ _ _ _ H Ha Hb).
Defined.

Lemma normalize_and_export_twice_witness :
  exists rows,
    lib_process_trades (Some "123") Samples.history "buyer" = Ok rows
    /\ (let run := lib_normalize_and_export (Some "123") Samples.history
                     "buyer" "csfloat_purchases.csv" in
        run (fst (run Samples.empty_world)) = run Samples.empty_world
        /\ files (fst (run Samples.empty_world)) !! "csfloat_purchases.csv"
           = Some (utf8 (csv_text Samples.str_of_float Samples.str_of_json
                                  rows))).
Proof.
  destruct (lib_process_trades (Some "123") Samples.history "buyer")
    as [rows|e] eqn:H; [|vm_compute in H; discriminate H].
  exists rows. split; [reflexivity|].
  destruct (normalize_and_export_twice Datetime.fromisoformat
              Datetime.strftime_Ymd Samples.float_of_str
              Samples.str_of_float Samples.str_of_json (Some "123")
              Samples.history "buyer" "csfloat_purchases.csv"
              Samples.empty_world) as (Htwice & Hbytes).
  split; [exact Htwice|exact (Hbytes rows H Samples.empty_world)].
Defined.

Lemma process_trades_total_on_strings_witness :
  Forall (fun t => lib_well_formed Buyer t = true) Samples.history
  /\ (exists rows,
        lib_process_trades (Some "123") Samples.history "buyer" = Ok rows)
  /\ reaches_parse (Some "123") Buyer Samples.numeric_date_trade = true
  /\ is_str (chosen_date Samples.numeric_date_trade) = false
  /\ lib_process_trade (Some "123") "buyer" Samples.numeric_date_trade
     = Raise AttributeError
  /\ exists e,
       lib_process_trades (Some "123")
         ([Samples.verified_trade] ++ Samples.numeric_date_trade
            :: [Samples.earlier_trade]) "buyer" = Raise e.
Proof.
  destruct (process_trades_total_on_strings Datetime.fromisoformat
              Datetime.strftime_Ymd Samples.float_of_str (Some "123") Buyer)
    as (Htotal & _ & _ & Hraise).
  split; [exact history_well_formed|].
  split; [exact (Htotal _ history_well_formed)|].
  split; [reflexivity|]. split; [reflexivity|].
  exact (Hraise [Samples.verified_trade] Samples.numeric_date_trade
           [Samples.earlier_trade] eq_refl eq_refl).
Defined.

(** Every timestamp of these records is a string.  The [contract] of the
    first is a number, the price of the second is beyond the floats: the
    call raises on both. *)
Lemma process_trades_numeric_contract :
  (field ["accepted_at"] Samples.numeric_contract_trade
   = JStr "2023-05-01T12:00:00Z"
   /\ at_path ["verified_at"] Samples.numeric_contract_trade = None
   /\ lib_process_trades (Some "123") [Samples.numeric_contract_trade] "buyer"
      = Raise AttributeError)
  /\ (field ["accepted_at"] Samples.overpriced_trade
      = JStr "2023-05-01T12:00:00Z"
      /\ at_path ["verified_at"] Samples.overpriced_trade = None
      /\ lib_process_trades (Some "123") [Samples.overpriced_trade] "buyer"
         = Raise OverflowError).
Proof. repeat split; vm_compute; reflexivity. Qed.

Lemma anonymous_server_last_page role :
  role = "buyer" \/ role = "seller" ->
  last_page Samples.anonymous_server role 0.
Proof.
  intros [-> | ->]; (split; [vm_compute; reflexivity|intros k Hk; lia]).
Qed.

Lemma identity_never_checked_witness :
  optstr_falsy None = true
  /\ lib_async_main (Some "123") None Samples.anonymous_server 3
       Samples.empty_world = Some (Samples.empty_world, None)
  /\ (exists w' purchases sales rest,
        lib_async_main None (Some "key") Samples.anonymous_server 3
          Samples.empty_world = Some (w', None)
        /\ Forall2 (fun t row =>
                      lib_process_trade None "buyer" t = Ok (Some row))
                   [Samples.anonymous_trade] purchases
        /\ Forall2 (fun t row =>
                      lib_process_trade None "seller" t = Ok (Some row))
                   [Samples.anonymous_trade] sales
        /\ files w' !! "csfloat_purchases.csv"
           = Some (utf8 (csv_text Samples.str_of_float Samples.str_of_json
                                  (sort_by_date purchases)))
        /\ files w' !! "csfloat_sales.csv"
           = Some (utf8 (csv_text Samples.str_of_float Samples.str_of_json
                                  (sort_by_date sales)))
        /\ requests (trace w')
           = mk_request (trades_url "buyer" 0) "key" :: rest)
  /\ lib_well_formed Buyer Samples.verified_trade = true
  /\ lib_process_trade None "buyer" Samples.verified_trade = Ok None
  /\ lib_well_formed Buyer Samples.null_seller_trade = false
  /\ (exists row,
        lib_process_trade None "buyer" Samples.null_seller_trade
        = Ok (Some row)
        /\ state_verified Samples.null_seller_trade = true
        /\ has_date Samples.null_seller_trade = true
        /\ field ["buyer"; "steam_id"] Samples.null_seller_trade = JNull)
  /\ (exists rows processed,
        lib_process_trades None
          [ Samples.null_seller_trade; Samples.verified_trade;
            Samples.anonymous_trade ] "buyer" = Ok rows
        /\ Forall2 (fun t row =>
                      lib_process_trade None "buyer" t = Ok (Some row))
                   [Samples.null_seller_trade; Samples.anonymous_trade]
                   processed
        /\ rows = sort_by_date processed).
Proof.
  destruct (identity_never_checked Datetime.fromisoformat
              Datetime.strftime_Ymd Samples.float_of_str
              Samples.str_of_float Samples.str_of_json
              Samples.anonymous_server 3 Samples.empty_world)
    as (Habort & Hsent & Hbody & _ & Hlist & Hrun & Hkept).
  split; [reflexivity|]. split; [exact (Habort (Some "123") None eq_refl)|].
  split; [|split; [reflexivity|split; [|split; [reflexivity|split]]]].
  - destruct (Hrun "key" 0%nat 0%nat)
      as (w' & p & s & Hw & Hp & Hs & Hfp & Hfs & _).
    + discriminate.
    + apply anonymous_server_last_page. now left.
    + lia.
    + apply anonymous_server_last_page. now right.
    + lia.
    + replace (pages_upto Samples.anonymous_server "buyer" 1)
        with [Samples.anonymous_trade; Samples.verified_trade]
        by (vm_compute; reflexivity).
      repeat constructor.
    + replace (pages_upto Samples.anonymous_server "seller" 1)
        with [Samples.anonymous_trade; Samples.bare_trade]
        by (vm_compute; reflexivity).
      repeat constructor.
    + destruct (Hsent None (Some "key") w' None eq_refl Hw)
        as (rest & Hrest).
      exists w', p, s, rest. repeat split; assumption.
  - apply (Hkept Buyer Samples.verified_trade eq_refl). discriminate.
  - destruct (lib_process_trade None "buyer" Samples.null_seller_trade)
      as [[row|]|e] eqn:H; [|vm_compute in H; discriminate H..].
    exists row. split; [reflexivity|].
    apply (Hbody Buyer _ _ H). now exists row.
  - destruct (lib_process_trades None
                [ Samples.null_seller_trade; Samples.verified_trade;
                  Samples.anonymous_trade ] "buyer")
      as [rows|e] eqn:H; [|vm_compute in H; discriminate H].
    destruct (Hlist Buyer _ _ H) as (processed & Hrows & Hsorted).
    exists rows, processed. split; [reflexivity|].
    split; [exact Hrows|exact Hsorted].
Defined.

(** The shape of the records matters: a verified, dated record with
    nobody on it and a price beyond the floats meets the conditions, and
    [process_trades] raises on it. *)
Lemma process_trades_anonymous_overpriced :
  keeps None Buyer Samples.anonymous_overpriced_trade = true
  /\ lib_well_formed Buyer Samples.anonymous_overpriced_trade = false
  /\ lib_process_trades None [Samples.anonymous_overpriced_trade] "buyer"
     = Raise OverflowError.
Proof. repeat split; vm_compute; reflexivity. Qed.

(** With the identity [None], a verified record without a [steam_id] and
    without a date is dropped. *)
Lemma process_trades_bare_trade :
  state_verified Samples.bare_trade = true
  /\ at_path ["buyer"; "steam_id"] Samples.bare_trade = None
  /\ lib_process_trades None [Samples.bare_trade] "buyer" = Ok [].
Proof. repeat split. Qed.

(** ** The further properties at work on the samples *)

Local Abbreviation lib_process_loop :=
  (process_loop Datetime.fromisoformat Datetime.strftime_Ymd
                Samples.float_of_str).

Lemma safe_float_escapes_only_overflow_witness :
  to_float Samples.float_of_str (JStr "n/a") = Raise ValueError
  /\ safe_float Samples.float_of_str (JStr "n/a") (Some zero)
     = Ok (Some zero)
  /\ safe_float Samples.float_of_str (JInt (10 ^ 400)) None
     = Raise OverflowError
  /\ is_infinite (of_Z (10 ^ 400)) = true.
Proof.
  destruct (safe_float_escapes_only_overflow Samples.float_of_str
              (JStr "n/a") (Some zero)) as (_ & Hdefault & _).
  destruct (safe_float_escapes_only_overflow Samples.float_of_str
              (JInt (10 ^ 400)) None) as (_ & _ & Hraise).
  assert (to_float Samples.float_of_str (JStr "n/a") = Raise ValueError)
    as Hrejected by (vm_compute; reflexivity).
  assert (safe_float Samples.float_of_str (JInt (10 ^ 400)) None
          = Raise OverflowError) as Hbig by (vm_compute; reflexivity).
  split; [exact Hrejected|].
  split; [apply (Hdefault ValueError Hrejected); discriminate|].
  split; [exact Hbig|].
  destruct (Hraise _ Hbig) as (_ & z & Hz & Hinf).
  injection Hz as <-. exact Hinf.
Defined.

Lemma format_price_escapes_only_overflow_witness :
  format_price (JInt (10 ^ 400)) true = Raise OverflowError
  /\ format_price (JStr "12.50") true = Ok zero
  /\ ((exists z, JInt (10 ^ 400) = JInt z)
      \/ exists x, JInt (10 ^ 400) = JFloat x).
Proof.
  assert (format_price (JInt (10 ^ 400)) true = Raise OverflowError) as H
    by (vm_compute; reflexivity).
  split; [exact H|]. split; [reflexivity|].
  exact (proj2 (format_price_escapes_only_overflow _ _ _ H)).
Defined.

Lemma process_trades_non_object_witness :
  (forall d, JStr "t" <> JDict d)
  /\ lib_process_trade (Some "123") "buyer" (JStr "t") = Raise AttributeError
  /\ exists e,
       lib_process_trades (Some "123")
         ([Samples.verified_trade] ++ JStr "t" :: [Samples.earlier_trade])
         "buyer" = Raise e.
Proof.
  assert (forall d, JStr "t" <> JDict d) as Hno by discriminate.
  split; [exact Hno|].
  exact (process_trades_non_object Datetime.fromisoformat
           Datetime.strftime_Ymd Samples.float_of_str (Some "123") "buyer"
           [Samples.verified_trade] (JStr "t") [Samples.earlier_trade] Hno).
Defined.

Lemma process_trade_check_order_witness :
  lib_process_trade (Some "123") "buyer" (JDict Samples.foreign_broken)
  = Ok None
  /\ lib_process_trade (Some "123") "buyer" (JDict Samples.pending_broken)
     = Ok None
  /\ has_date (JDict Samples.undated_broken) = false
  /\ lib_process_trade (Some "123") "buyer" (JDict Samples.undated_broken)
     = Raise AttributeError.
Proof.
  split; [|split; [|split; [reflexivity|]]].
  - exact (proj1 (process_trade_check_order Datetime.fromisoformat
                    Datetime.strftime_Ymd Samples.float_of_str (Some "123")
                    Buyer Samples.foreign_broken eq_refl) eq_refl).
  - exact (proj1 (proj2 (process_trade_check_order Datetime.fromisoformat
                           Datetime.strftime_Ymd Samples.float_of_str
                           (Some "123") Buyer Samples.pending_broken
                           eq_refl)) eq_refl).
  - exact (proj2 (proj2 (process_trade_check_order Datetime.fromisoformat
                           Datetime.strftime_Ymd Samples.float_of_str
                           (Some "123") Buyer Samples.undated_broken
                           eq_refl)) eq_refl eq_refl eq_refl).
Defined.

Lemma process_trades_returns_kept_witness :
  lib_well_formed Buyer (JDict Samples.foreign_broken) = false
  /\ exists rows processed,
       lib_process_trades (Some "123")
         [ Samples.verified_trade; JDict Samples.foreign_broken;
           Samples.earlier_trade ] "buyer" = Ok rows
       /\ Forall2 (fun t row =>
                     lib_process_trade (Some "123") "buyer" t
                     = Ok (Some row))
                  [Samples.verified_trade; Samples.earlier_trade] processed
       /\ rows = sort_by_date processed
       /\ List.length rows = 2%nat.
Proof.
  split; [reflexivity|].
  destruct (lib_process_trades (Some "123")
              [ Samples.verified_trade; JDict Samples.foreign_broken;
                Samples.earlier_trade ] "buyer")
    as [rows|e] eqn:H; [|vm_compute in H; discriminate H].
  destruct (process_trades_returns_kept _ _ _ _ Buyer _ _ H)
    as (processed & Hrows & Hsorted & Hlen).
  exists rows, processed. split; [reflexivity|].
  split; [exact Hrows|]. split; [exact Hsorted|exact Hlen].
Defined.

Lemma process_trade_defaults_witness :
  exists row,
    lib_process_trade (Some "123") "buyer" Samples.nameless_trade
    = Ok (Some row)
    /\ item_name row = JNull
    /\ type row = JStr "Unknown"
    /\ id row = JStr EmptyString
    /\ float row = None.
Proof.
  destruct (lib_process_trade (Some "123") "buyer" Samples.nameless_trade)
    as [[row|]|e] eqn:H;
    [|vm_compute in H; discriminate H..].
  destruct (process_trade_defaults _ _ _ _ _ _ _ H)
    as (Hname & Htype & Hid & Hfloat).
  exists row. split; [reflexivity|]. split; [exact Hname|].
  split; [exact Htype|]. split; [exact Hid|].
  vm_compute in Hfloat. injection Hfloat as Hfloat. exact (eq_sym Hfloat).
Defined.

Lemma process_trades_stable_witness :
  exists rows processed,
    lib_process_trades (Some "123")
      [ Samples.verified_trade; Samples.earlier_trade;
        Samples.same_day_trade ] "buyer" = Ok rows
    /\ lib_process_loop (Some "123") "buyer"
         [ Samples.verified_trade; Samples.earlier_trade;
           Samples.same_day_trade ] [] = Ok processed
    /\ List.map id processed = [JStr "abc"; JStr "def"; JStr "xyz"]
    /\ List.map id rows = [JStr "def"; JStr "abc"; JStr "xyz"]
    /\ List.map id
         (List.filter (fun x => String.eqb (date x) "2023-01-15") rows)
       = [JStr "abc"; JStr "xyz"].
Proof.
  destruct (lib_process_trades (Some "123")
              [ Samples.verified_trade; Samples.earlier_trade;
                Samples.same_day_trade ] "buyer")
    as [rows|e] eqn:H; [|vm_compute in H; discriminate H].
  destruct (process_trades_stable _ _ _ _ _ _ _ H)
    as (processed & Hloop & _ & Hsame).
  exists rows, processed. split; [reflexivity|]. split; [exact Hloop|].
  assert (List.map id processed = [JStr "abc"; JStr "def"; JStr "xyz"])
    as Hids
    by (vm_compute in Hloop; injection Hloop as <-; reflexivity).
  split; [exact Hids|].
  split; [vm_compute in H; injection H as <-; reflexivity|].
  rewrite Hsame.
  vm_compute in Hloop. injection Hloop as <-. reflexivity.
Defined.

Lemma format_date_fallback_unchecked_witness :
  Datetime.fromisoformat (replace "Z" "+00:00" "TBD") = None
  /\ lib_format_date (JStr "TBD") = Ok EmptyString
  /\ Datetime.fromisoformat (replace "Z" "+00:00" "n/a") = None
  /\ lib_format_date (JStr "n/a") = Ok "n/a".
Proof.
  split; [reflexivity|]. split; [|split; [reflexivity|]].
  - exact (proj1 (format_date_fallback_unchecked Datetime.fromisoformat
                    Datetime.strftime_Ymd "TBD" eq_refl) eq_refl).
  - apply (format_date_fallback_unchecked Datetime.fromisoformat
             Datetime.strftime_Ymd "n/a" eq_refl); [reflexivity|].
    simpl. lia.
Defined.

Lemma fetch_returns_at_last_page_witness :
  exists f n,
    fetch_csfloat_trades Samples.second_page_refused 5 1700000000
                         "key" "buyer" = Returned f
    /\ (n < 5)%nat
    /\ last_page Samples.second_page_refused "buyer" n
    /\ all_trades f = pages_upto Samples.second_page_refused "buyer" (S n)
    /\ requests (fetch_trace f) = requests_upto "key" "buyer" (S n).
Proof.
  destruct (fetch_csfloat_trades Samples.second_page_refused 5 1700000000
                                 "key" "buyer")
    as [f|tr] eqn:H; [|vm_compute in H; discriminate H].
  destruct (fetch_returns_at_last_page _ _ _ _ _ _ H)
    as (n & Hn & Hlast & Hall & Hreq).
  exists f, n. split; [reflexivity|]. split; [exact Hn|].
  split; [exact Hlast|]. split; [exact Hall|exact Hreq].
Defined.

Lemma fetch_takes_time_witness :
  exists f,
    fetch_csfloat_trades Samples.two_pages 5 1700000000 "key" "buyer"
    = Returned f
    /\ List.length (requests (fetch_trace f)) = 2%nat
    /\ (1700000000 + inject_Z (Z.of_nat 1) * RATE_LIMIT <= fetch_end f)%Q.
Proof.
  destruct (fetch_csfloat_trades Samples.two_pages 5 1700000000
                                 "key" "buyer")
    as [f|tr] eqn:H; [|vm_compute in H; discriminate H].
  destruct (fetch_takes_time _ _ _ _ _ _ H) as (m & Hlen & Hend).
  assert (List.length (requests (fetch_trace f)) = 2%nat) as Htwo
    by (vm_compute in H; injection H as <-; reflexivity).
  exists f. split; [reflexivity|]. split; [exact Htwo|].
  rewrite Htwo in Hlen. injection Hlen as <-. exact Hend.
Defined.

Lemma async_main_paced_witness :
  exists w' a b,
    lib_async_main None (Some "key") Samples.anonymous_server 3
      Samples.empty_world = Some (w', None)
    /\ stamps (trace w') = [a; b]
    /\ (a + RATE_LIMIT <= b)%Q.
Proof.
  destruct (lib_async_main None (Some "key") Samples.anonymous_server 3
              Samples.empty_world) as [[w' err]|] eqn:H;
    [|vm_compute in H; discriminate H].
  pose proof H as H'. vm_compute in H'.
  injection H' as Hw Herr. subst w' err.
  eexists _, _, _. split; [reflexivity|]. split; [reflexivity|].
  eapply (async_main_paced _ _ _ _ _ _ _ _ _ _ _ _ 0%nat);
    [|exact H|reflexivity|reflexivity].
  reflexivity.
Defined.

Lemma async_main_exception_witness :
  exists w' fb,
    lib_async_main (Some "123") (Some "key") Samples.broken_sales 3
      Samples.empty_world = Some (w', Some AttributeError)
    /\ fetch_csfloat_trades Samples.broken_sales 3 1700000000 "key" "buyer"
       = Returned fb
    /\ files w' !! "csfloat_sales.csv" = None
    /\ is_Some (files w' !! "csfloat_purchases.csv").
Proof.
  destruct (lib_async_main (Some "123") (Some "key") Samples.broken_sales 3
              Samples.empty_world) as [[w' [e|]]|] eqn:H;
    [|vm_compute in H; discriminate H..].
  assert (e = AttributeError) as ->
    by (vm_compute in H; injection H as _ He; exact (eq_sym He)).
  destruct (async_main_exception _ _ _ _ _ _ _ _ _ _ _ _ H)
    as (fb & Hfb & Hsales & _).
  exists w', fb. split; [reflexivity|]. split; [exact Hfb|].
  split; [rewrite Hsales; reflexivity|].
  vm_compute in H. injection H as <-. eexists. reflexivity.
Defined.

Lemma async_main_failed_requests_witness :
  files Samples.used_world !! "csfloat_purchases.csv"
  = Some "purchases of an earlier run"
  /\ failed (page_outcome Samples.refusing_server "buyer" 0) = true
  /\ failed (page_outcome Samples.refusing_server "seller" 0) = true
  /\ exists w',
       lib_async_main (Some "123") (Some "key") Samples.refusing_server 3
         Samples.used_world = Some (w', None)
       /\ files w' !! "csfloat_purchases.csv"
          = Some (utf8 (csv_record header))
       /\ files w' !! "csfloat_sales.csv"
          = Some (utf8 (csv_record header)).
Proof.
  split; [vm_compute; reflexivity|]. split; [reflexivity|].
  split; [reflexivity|].
  destruct (async_main_failed_requests Datetime.fromisoformat
              Datetime.strftime_Ymd Samples.float_of_str
              Samples.str_of_float Samples.str_of_json (Some "123")
              (Some "key") Samples.refusing_server 3 Samples.used_world
              eq_refl) as (w' & Hrun & Hp & Hs & _);
    [lia|reflexivity|reflexivity|].
  exists w'. split; [exact Hrun|]. split; [exact Hp|exact Hs].
Defined.

Lemma async_main_frame_witness :
  exists w' err,
    lib_async_main (Some "123") (Some "key") Samples.broken_sales 3
      Samples.used_world = Some (w', err)
    /\ files w' !! "notes.txt" = Some "kept"
    /\ (clock Samples.used_world <= clock w')%Q.
Proof.
  destruct (lib_async_main (Some "123") (Some "key") Samples.broken_sales 3
              Samples.used_world) as [[w' err]|] eqn:H;
    [|vm_compute in H; discriminate H].
  destruct (async_main_frame _ _ _ _ _ _ _ _ _ _ _ _ H)
    as (Hfiles & Hclock & _).
  exists w', err. split; [reflexivity|]. split; [|exact Hclock].
  rewrite Hfiles by discriminate. vm_compute. reflexivity.
Defined.

Lemma csv_record_injective_witness :
  let r := mk_row (JStr "AK-47, worn") one None (JStr "Rifle")
                  "2023-01-15" (JInt 7) in
  let r' := mk_row (JStr "AK-47, worn") one None (JStr "Rifle")
                   "2023-01-15" (JStr "7") in
  csv_record (row_cells Samples.str_of_float Samples.str_of_json r)
  = csv_record (row_cells Samples.str_of_float Samples.str_of_json r')
  /\ row_cells Samples.str_of_float Samples.str_of_json r
     = row_cells Samples.str_of_float Samples.str_of_json r'
  /\ csv_record ["a"; "b,c"] <> csv_record ["a,b"; "c"].
Proof.
  intros r r'.
  destruct (csv_record_injective Samples.str_of_float Samples.str_of_json)
    as (Hfields & Hcells).
  assert (csv_record (row_cells Samples.str_of_float Samples.str_of_json r)
          = csv_record
              (row_cells Samples.str_of_float Samples.str_of_json r'))
    as H by (vm_compute; reflexivity).
  split; [exact H|]. split; [exact (Hcells r r' H)|].
  intros Hsame.
  apply Hfields in Hsame; [discriminate Hsame|simpl; lia|reflexivity].
Defined.

Lemma process_trades_other_role_witness :
  lib_process_trades (Some "123") Samples.history "admin"
  = lib_process_trades (Some "999") Samples.history "admin"
  /\ exists row,
       lib_process_trade (Some "123") "admin" Samples.foreign_trade
       = Ok (Some row)
       /\ format_price (field ["contract"; "price"] Samples.foreign_trade)
            false = Ok (price row).
Proof.
  destruct (process_trades_other_role Datetime.fromisoformat
              Datetime.strftime_Ymd Samples.float_of_str "admin"
              (Some "123") (Some "999") Samples.history)
    as (Hsame & Hprice); [discriminate..|].
  split; [exact Hsame|].
  destruct (lib_process_trade (Some "123") "admin" Samples.foreign_trade)
    as [[row|]|e] eqn:H; [|vm_compute in H; discriminate H..].
  exists row. split; [reflexivity|]. exact (Hprice _ _ H).
Defined.

Lemma fetch_short_sleeps_witness :
  (0 <= 1700000000)%Q
  /\ exists c w,
       events (fetch_csfloat_trades Samples.two_pages 5 1700000000
                 "key" "buyer") !! 1%nat = Some (Slept c w)
       /\ (0 < w)%Q /\ (w <= RATE_LIMIT)%Q.
Proof.
  assert (0 <= 1700000000)%Q as Hnow by discriminate.
  split; [exact Hnow|].
  pose proof (fetch_short_sleeps Samples.two_pages 5 1700000000 "key"
                "buyer" Hnow) as Hsleeps.
  destruct (events (fetch_csfloat_trades Samples.two_pages 5 1700000000
                      "key" "buyer") !! 1%nat)
    as [[c w|req t]|] eqn:Hev; [|vm_compute in Hev; discriminate Hev..].
  exists c, w. split; [reflexivity|].
  exact (proj1 (Forall_lookup _ _) Hsleeps 1%nat _ Hev).
Defined.

Lemma broken_sales_last_page role :
  role = "buyer" \/ role = "seller" ->
  last_page Samples.broken_sales role 0.
Proof.
  intros [-> | ->]; (split; [vm_compute; reflexivity|intros k Hk; lia]).
Qed.

Lemma async_main_terminates_witness :
  last_page Samples.broken_sales "buyer" 0
  /\ last_page Samples.broken_sales "seller" 0
  /\ exists w',
       lib_async_main (Some "123") (Some "key") Samples.broken_sales 3
         Samples.empty_world = Some (w', Some AttributeError)
       /\ requests (trace w')
          = [ mk_request (trades_url "buyer" 0) "key";
              mk_request (trades_url "seller" 0) "key" ].
Proof.
  assert (last_page Samples.broken_sales "buyer" 0) as Hb
    by (apply broken_sales_last_page; now left).
  assert (last_page Samples.broken_sales "seller" 0) as Hs
    by (apply broken_sales_last_page; now right).
  split; [exact Hb|]. split; [exact Hs|].
  destruct (async_main_terminates Datetime.fromisoformat
              Datetime.strftime_Ymd Samples.float_of_str
              Samples.str_of_float Samples.str_of_json (Some "123")
              (Some "key") Samples.broken_sales 3 Samples.empty_world
              0 0 Hb) as (w' & Hrun & Hreq); [lia|exact Hs|lia|].
  exists w'. split; [exact Hrun|exact Hreq].
Defined.
